(** * Model of mediagoblin/media_types/stl/model_loader.py

    A shallow embedding of the 3D model loader of MediaGoblin (Python 2):
    the [ThreeDee] statistics constructor, the [ObjModel] and
    [BinaryStlModel] loaders and [auto_detect].

    Modelling choices:
    - A Python 2 [str] is a byte string; it is modelled as a Rocq [string]
      (a list of 8-bit [ascii] characters), so text and binary files share one
      representation.
    - A file object is a record of its contents and its current offset;
      [read], [seek] and line iteration act on it by explicit state passing,
      in a state-and-exception monad [M] whose failures keep the stream state
      the exception left behind.
    - Python numbers are either [int] (an unbounded [Z]) or [float].  A
      float is [inf], [-inf], [nan], or a finite value, modelled by its exact
      rational value [Q]: binary64 rounding is not modelled, so the finite
      results of float arithmetic are the exact ones, which can differ from
      Python's in the last bits.  Python 2's [int / int] is floor division.
    - [float(token)] accepts what Python 2.7 accepts: surrounding whitespace,
      an optional sign, then [inf], [infinity] or [nan] in any case, or a
      decimal literal (digits, point, exponent).
    - Python 2's [range(n)] builds a list and raises [MemoryError] when it
      does not fit in memory, which depends on the machine: the binary
      loader and [auto_detect] take that as a parameter [fits]
      ([stl_load_with], [binary_stl_model_with], [auto_detect_with], ...);
      [stl_load], [binary_stl_model] and [auto_detect] are the loaders on a
      machine where every [range] fits. *)

From Stdlib Require Import ZArith QArith Qabs List String Ascii Bool Lia Lqa.
Import ListNotations.
Open Scope string_scope.

(** ** Python values *)

(** A Python [float]: a finite value, by its exact rational value, or one
    of the non-finite values [inf], [-inf] ([Inf true]) and [nan]. *)
Inductive pyfloat :=
| Fin (q : Q)
| Inf (neg : bool)
| NaN.

Coercion Fin : Q >-> pyfloat.
Bind Scope Q_scope with pyfloat.

Inductive pynum :=
| PInt (z : Z)
| PFloat (f : pyfloat).

(** [float(x)] of a number, as Python converts an [int] operand of a mixed
    operation. *)
Definition to_float (x : pynum) : pyfloat :=
  match x with PInt z => Fin (inject_Z z) | PFloat f => f end.

(** IEEE-754 addition on the non-finite values: [nan] absorbs, [inf + -inf]
    is [nan], an infinity absorbs a finite value. *)
Definition f_add (x y : pyfloat) : pyfloat :=
  match x, y with
  | NaN, _ | _, NaN => NaN
  | Inf a, Inf b => if Bool.eqb a b then Inf a else NaN
  | Inf a, Fin _ | Fin _, Inf a => Inf a
  | Fin p, Fin q => Fin (p + q)
  end.

Definition f_neg (x : pyfloat) : pyfloat :=
  match x with Fin q => Fin (- q) | Inf a => Inf (negb a) | NaN => NaN end.

Definition f_sub (x y : pyfloat) : pyfloat :=
  match x, y with
  | Fin p, Fin q => Fin (p - q)
  | _, _ => f_add x (f_neg y)
  end.

(** Division; it is only applied with a positive divisor (a vertex count),
    so the [ZeroDivisionError] of a zero divisor does not arise. *)
Definition f_div (x y : pyfloat) : pyfloat :=
  match x, y with
  | NaN, _ | _, NaN => NaN
  | Inf _, Inf _ => NaN
  | Inf a, Fin q => if Qle_bool 0 q then Inf a else Inf (negb a)
  | Fin _, Inf _ => Fin 0
  | Fin p, Fin q => Fin (p / q)
  end.

Definition f_abs (x : pyfloat) : pyfloat :=
  match x with Fin q => Fin (Qabs q) | Inf _ => Inf false | NaN => NaN end.

(** [x < y]: every comparison with [nan] is false. *)
Definition f_lt (x y : pyfloat) : bool :=
  match x, y with
  | NaN, _ | _, NaN => false
  | Fin p, Fin q => negb (Qle_bool q p)
  | Inf true, Inf true => false
  | Inf true, _ => true
  | Inf false, _ => false
  | Fin _, Inf b => negb b
  end.

(** [x + y] *)
Definition py_add (x y : pynum) : pynum :=
  match x, y with
  | PInt a, PInt b => PInt (a + b)
  | _, _ => PFloat (f_add (to_float x) (to_float y))
  end.

(** [x - y] *)
Definition py_sub (x y : pynum) : pynum :=
  match x, y with
  | PInt a, PInt b => PInt (a - b)
  | _, _ => PFloat (f_sub (to_float x) (to_float y))
  end.

(** [x / y] in Python 2: floor division on two ints. *)
Definition py_div (x y : pynum) : pynum :=
  match x, y with
  | PInt a, PInt b => PInt (Z.div a b)
  | _, _ => PFloat (f_div (to_float x) (to_float y))
  end.

(** [abs(x)] *)
Definition py_abs (x : pynum) : pynum :=
  match x with PInt a => PInt (Z.abs a) | PFloat f => PFloat (f_abs f) end.

(** [x < y]; Python compares an [int] and a [float] by their exact values. *)
Definition py_lt (x y : pynum) : bool := f_lt (to_float x) (to_float y).

(** [not x] for a value that is [None] or a number: only zero is false
    ([inf] and [nan] are true). *)
Definition py_not (x : option pynum) : bool :=
  match x with
  | None => true
  | Some (PInt z) => Z.eqb z 0
  | Some (PFloat (Fin q)) => Qeq_bool q 0
  | Some (PFloat _) => false
  end.

(** ** Exceptions and the state-and-exception monad *)

Inductive exn :=
| ThreeDeeParseError (msg : string)
| ValueError        (* float() of a non-numeric token *)
| IndexError        (* vector[i] out of range *)
| TypeError         (* arithmetic on None *)
| StructError       (* struct.unpack on a string of the wrong length *)
| MemoryError.

Inductive result (A : Type) :=
| Ok (a : A)
| Err (e : exn).
Arguments Ok {A} a.
Arguments Err {A} e.

(** A file object: its bytes and the current offset. *)
Record stream := mkStream { data : string; pos : nat }.

Definition M (A : Type) := stream -> result A * stream.

Definition ret {A} (a : A) : M A := fun s => (Ok a, s).
Definition raise {A} (e : exn) : M A := fun s => (Err e, s).
Definition bind {A B} (m : M A) (f : A -> M B) : M B :=
  fun s => match m s with
           | (Ok a, s') => f a s'
           | (Err e, s') => (Err e, s')
           end.
Definition lift {A} (r : result A) : M A := fun s => (r, s).

Notation "x <- m ;; k" := (bind m (fun x => k))
  (at level 61, m at next level, right associativity).
Notation "m ;;; k" := (bind m (fun _ => k))
  (at level 61, right associativity).

(** [try: m except e: h] for the exceptions selected by [catches]. *)
Definition try_except {A} (m : M A) (catches : exn -> bool) (h : M A) : M A :=
  fun s => match m s with
           | (Err e, s') => if catches e then h s' else (Err e, s')
           | r => r
           end.

(** ** File operations *)

(** The bytes from the current offset to the end. *)
Definition rest (s : stream) : string := substring (pos s) (length (data s)) (data s).

(** [fileob.read(n)]: at most [n] bytes, fewer at the end of the file. *)
Definition read (n : nat) : M string :=
  fun s => let b := substring (pos s) n (data s) in
           (Ok b, mkStream (data s) (pos s + length b)).

(** [fileob.seek(k)] *)
Definition seek (k : nat) : M unit :=
  fun s => (Ok tt, mkStream (data s) k).

(** Line splitting as done by [for line in fileob]: each line keeps its
    terminating newline, the last one may lack it, no line is empty. *)
Fixpoint split_lines_acc (cur : string) (s : string) : list string :=
  match s with
  | EmptyString => match cur with EmptyString => [] | _ => [cur] end
  | String c s' =>
      if Ascii.eqb c "010"%char
      then (cur ++ String c EmptyString) :: split_lines_acc EmptyString s'
      else split_lines_acc (cur ++ String c EmptyString) s'
  end.

Definition split_lines (s : string) : list string := split_lines_acc EmptyString s.

(** Advance the file offset past a line just yielded by the iterator. *)
Definition advance (n : nat) : M unit :=
  fun s => (Ok tt, mkStream (data s) (pos s + n)).

(** ** String helpers: [str.strip()], [str.split(" ")], [float()] *)

(** Python 2 [str.isspace] on one byte: space, \t, \n, \v, \f, \r. *)
Definition py_isspace (c : ascii) : bool :=
  let n := nat_of_ascii c in (n =? 32)%nat || ((9 <=? n)%nat && (n <=? 13)%nat).

Fixpoint lstrip (s : string) : string :=
  match s with
  | EmptyString => EmptyString
  | String c s' => if py_isspace c then lstrip s' else s
  end.

Definition rev_string (s : string) : string := string_of_list_ascii (rev (list_ascii_of_string s)).

(** [s.strip()] *)
Definition strip (s : string) : string := rev_string (lstrip (rev_string (lstrip s))).

(** [s.split(" ")]: splits on every single space, keeping empty fields. *)
Fixpoint split_space_acc (cur : string) (s : string) : list string :=
  match s with
  | EmptyString => [cur]
  | String c s' =>
      if Ascii.eqb c " "%char then cur :: split_space_acc EmptyString s'
      else split_space_acc (cur ++ String c EmptyString) s'
  end.

Definition split_space (s : string) : list string := split_space_acc EmptyString s.

Definition is_digit (c : ascii) : bool :=
  let n := nat_of_ascii c in (48 <=? n)%nat && (n <=? 57)%nat.

(** The longest prefix of decimal digits, as their values, and the rest. *)
Fixpoint take_digits (s : string) : list Z * string :=
  match s with
  | String c s' =>
      if is_digit c then
        let (ds, r) := take_digits s' in (Z.of_nat (nat_of_ascii c - 48) :: ds, r)
      else ([], s)
  | EmptyString => ([], s)
  end.

Definition digits_value (ds : list Z) : Z := fold_left (fun acc d => acc * 10 + d)%Z ds 0%Z.

(** An optional sign: [+1] or [-1], and the rest. *)
Definition take_sign (s : string) : Z * string :=
  match s with
  | String "+"%char s' => (1%Z, s')
  | String "-"%char s' => ((-1)%Z, s')
  | _ => (1%Z, s)
  end.

(** [10 ^ e] as a rational, for any integer [e]. *)
Definition pow10 (e : Z) : Q :=
  if (0 <=? e)%Z then inject_Z (10 ^ e) else / inject_Z (10 ^ (- e)).

(** The exponent part [e[sign]digits], or nothing. *)
Definition take_exponent (s : string) : option (Z * string) :=
  match s with
  | String c s' =>
      if Ascii.eqb c "e"%char || Ascii.eqb c "E"%char then
        let (sg, s1) := take_sign s' in
        let (ds, r) := take_digits s1 in
        match ds with [] => None | _ => Some (sg * digits_value ds, r)%Z end
      else Some (0%Z, s)
  | EmptyString => Some (0%Z, s)
  end.

(** ASCII lower case, as the case-insensitive match of [inf] and [nan]. *)
Definition lower_ascii (c : ascii) : ascii :=
  let n := nat_of_ascii c in
  if (65 <=? n)%nat && (n <=? 90)%nat then ascii_of_nat (n + 32) else c.

Fixpoint lower (s : string) : string :=
  match s with
  | EmptyString => EmptyString
  | String c s' => String (lower_ascii c) (lower s')
  end.

(** [float(tok)] on a decimal literal: digits with an optional point and an
    optional exponent. *)
Definition parse_decimal (sg : Z) (s1 : string) : option Q :=
  let (ds1, s2) := take_digits s1 in
  let (ds2, s3) :=
    match s2 with
    | String "."%char s2' => take_digits s2'
    | _ => ([], s2)
    end in
  match (ds1 ++ ds2)%list with
  | [] => None
  | ds =>
      match take_exponent s3 with
      | Some (e, EmptyString) =>
          Some (inject_Z (sg * digits_value ds) * pow10 (e - Z.of_nat (List.length ds2)))
      | _ => None
      end
  end.

(** [float(tok)]: surrounding whitespace, an optional sign, then [inf],
    [infinity] or [nan] in any case, or a decimal literal; [None] stands for
    [ValueError]. *)
Definition parse_float (tok : string) : option pyfloat :=
  let t := strip tok in
  let (sg, s1) := take_sign t in
  let w := lower s1 in
  if String.eqb w "inf" || String.eqb w "infinity" then Some (Inf (Z.ltb sg 0))
  else if String.eqb w "nan" then Some NaN
  else match parse_decimal sg s1 with
       | Some q => Some (Fin q)
       | None => None
       end.

(** [map(float, toks)]: Python 2's [map] is eager, every token is converted. *)
Fixpoint map_float (toks : list string) : result (list pynum) :=
  match toks with
  | [] => Ok []
  | t :: ts =>
      match parse_float t with
      | None => Err ValueError
      | Some q => match map_float ts with
                  | Ok ns => Ok (PFloat q :: ns)
                  | Err e => Err e
                  end
      end
  end.

(** ** [ObjModel] *)

(** A vertex is a Python tuple of numbers (of any length). *)
Definition vertex := list pynum.

(** [ObjModel.__vector(line, expected=3)] *)
Definition obj_vector (line : string) : result vertex :=
  match map_float (tl (split_space (strip line))) with
  | Ok nums => Ok (firstn 3 nums)
  | Err e => Err e
  end.

(** [line[0] == "v"] (lines yielded by a file are never empty). *)
Definition starts_with_v (line : string) : bool :=
  match line with
  | String c _ => Ascii.eqb c "v"%char
  | EmptyString => false
  end.

(** The loop of [ObjModel.load]: the iterator yields one line at a time,
    and [self.verts.append] extends [verts]. *)
Fixpoint obj_load_lines (lines : list string) (verts : list vertex) : M (list vertex) :=
  match lines with
  | [] => ret verts
  | line :: lines' =>
      advance (length line) ;;;
      if starts_with_v line then
        v <- lift (obj_vector line) ;;
        obj_load_lines lines' (verts ++ [v])%list
      else obj_load_lines lines' verts
  end.

(** [ObjModel.load(fileob)] *)
Definition obj_load (verts : list vertex) : M (list vertex) :=
  fun s => obj_load_lines (split_lines (rest s)) verts s.

(** ** [ThreeDee.__init__] *)

(** Python list item assignment [l[i] = x] (only used with [i] in range). *)
Fixpoint list_set {A} (l : list A) (i : nat) (x : A) : list A :=
  match l, i with
  | [], _ => []
  | _ :: l', O => x :: l'
  | y :: l', S i' => y :: list_set l' i' x
  end.

(** The model's attributes. *)
Record model := mkModel {
  verts : list vertex;
  average : list pynum;
  min : list (option pynum);
  max : list (option pynum);
  width : pynum;
  depth : pynum;
  height : pynum
}.

(** The accumulators of the statistics loop. *)
Record acc := mkAcc {
  acc_average : list pynum;
  acc_min : list (option pynum);
  acc_max : list (option pynum)
}.

Definition acc_init : acc :=
  mkAcc [PInt 0; PInt 0; PInt 0] [None; None; None] [None; None; None].

(** One iteration of [for i in range(3)] on [vector]. *)
Definition stat_step (vector : vertex) (a : acc) (i : nat) : result acc :=
  match nth_error vector i with
  | None => Err IndexError
  | Some num =>
      let avg := list_set (acc_average a) i (py_add (nth i (acc_average a) (PInt 0)) num) in
      let mn := nth i (acc_min a) None in
      if py_not mn then
        Ok (mkAcc avg (list_set (acc_min a) i (Some num)) (list_set (acc_max a) i (Some num)))
      else
        let mins :=
          match mn with
          | Some m => if py_lt num m then list_set (acc_min a) i (Some num) else acc_min a
          | None => acc_min a
          end in
        let maxs :=
          match nth i (acc_max a) None with
          | Some m => if py_lt m num then list_set (acc_max a) i (Some num) else acc_max a
          | None => acc_max a
          end in
        Ok (mkAcc avg mins maxs)
  end.

Definition rbind {A B} (r : result A) (f : A -> result B) : result B :=
  match r with Ok a => f a | Err e => Err e end.

(** [for i in range(3): ...] *)
Definition stat_vector (vector : vertex) (a : acc) : result acc :=
  rbind (stat_step vector a 0) (fun a =>
  rbind (stat_step vector a 1) (fun a =>
  stat_step vector a 2)).

(** [for vector in self.verts: ...] *)
Fixpoint stat_verts (vs : list vertex) (a : acc) : result acc :=
  match vs with
  | [] => Ok a
  | v :: vs' => rbind (stat_vector v a) (stat_verts vs')
  end.

(** [abs(self.min[i] - self.max[i])]; [None - x] is a [TypeError]. *)
Definition extent (mn mx : option pynum) : result pynum :=
  match mn, mx with
  | Some a, Some b => Ok (py_abs (py_sub a b))
  | _, _ => Err TypeError
  end.

(** The statistics part of [ThreeDee.__init__], after [self.load]. *)
Definition stats (vs : list vertex) : result model :=
  rbind (stat_verts vs acc_init) (fun a =>
  let n := PInt (Z.of_nat (List.length vs)) in
  let avg := map (fun x => py_div x n) (acc_average a) in
  rbind (extent (nth 0 (acc_min a) None) (nth 0 (acc_max a) None)) (fun w =>
  rbind (extent (nth 1 (acc_min a) None) (nth 1 (acc_max a) None)) (fun d =>
  rbind (extent (nth 2 (acc_min a) None) (nth 2 (acc_max a) None)) (fun h =>
  Ok (mkModel vs avg (acc_min a) (acc_max a) w d h))))).

(** [ThreeDee.__init__(fileob)], given the subclass's [load]. *)
Definition threedee (load : list vertex -> M (list vertex)) : M model :=
  vs <- load [] ;;
  match vs with
  | [] => raise (ThreeDeeParseError "Empyt model.")
  | _ => lift (stats vs)
  end.

(** [ObjModel(fileob)] *)
Definition obj_model : M model := threedee obj_load.

(** ** [BinaryStlModel] *)

(** Byte value of a character. *)
Definition byte_val (c : ascii) : Z := Z.of_nat (nat_of_ascii c).

(** Little-endian unsigned value of a byte string. *)
Fixpoint le_unsigned (b : string) : Z :=
  match b with
  | EmptyString => 0%Z
  | String c b' => (byte_val c + 256 * le_unsigned b')%Z
  end.

(** Two's complement reading of a 32-bit unsigned value. *)
Definition signed32 (u : Z) : Z :=
  if (u <? 2 ^ 31)%Z then u else (u - 2 ^ 32)%Z.

(** The [hint] argument of [__num]; the [assert] restricts it to these three. *)
Inductive num_hint := Uint | Real | Short.

(** [struct.unpack(form, b)[0]] with the format chosen from [hint]: ["<I"],
    ["<i"] or ["<H"]; a string of the wrong length is a [struct.error]. *)
Definition unpack (hint : num_hint) (b : string) : result Z :=
  match hint with
  | Uint => if (length b =? 4)%nat then Ok (le_unsigned b) else Err StructError
  | Real => if (length b =? 4)%nat then Ok (signed32 (le_unsigned b)) else Err StructError
  | Short => if (length b =? 2)%nat then Ok (le_unsigned b) else Err StructError
  end.

(** The field width [bits/8] for each hint. *)
Definition num_width (hint : num_hint) : nat :=
  match hint with Uint => 4 | Real => 4 | Short => 2 end.

(** [BinaryStlModel.__num(fileob, hint)] *)
Definition stl_num (hint : num_hint) : M Z :=
  b <- read (num_width hint) ;;
  lift (unpack hint b).

(** [BinaryStlModel.__vector(fileob)] *)
Definition stl_vector : M vertex :=
  x <- stl_num Real ;;
  y <- stl_num Real ;;
  z <- stl_num Real ;;
  ret [PInt x; PInt y; PInt z].

(** One iteration of [for i in range(triangle_count)]. *)
Definition stl_triangle (vs : list vertex) : M (list vertex) :=
  stl_vector ;;;
  v0 <- stl_vector ;;
  v1 <- stl_vector ;;
  v2 <- stl_vector ;;
  stl_num Short ;;;
  ret (vs ++ [v0; v1; v2])%list.

Fixpoint stl_triangles (n : nat) (vs : list vertex) : M (list vertex) :=
  match n with
  | O => ret vs
  | S n' => vs' <- stl_triangle vs ;; stl_triangles n' vs'
  end.

(** [range(n)]: Python 2 builds the list of the [n] ints before the loop
    runs.  Whether that allocation succeeds depends on the memory of the
    machine, not on the program, so it is a parameter [fits] of the loader:
    [fits n = false] makes [range(n)] raise [MemoryError].  [n] is the
    triangle count read from the file, the one allocation whose size the
    file controls. *)
Definition range_alloc (fits : Z -> bool) (n : Z) : M unit :=
  if fits n then ret tt else raise MemoryError.

(** [BinaryStlModel.load(fileob)] *)
Definition stl_load_with (fits : Z -> bool) (vs : list vertex) : M (list vertex) :=
  seek 80 ;;;
  triangle_count <- stl_num Uint ;;
  range_alloc fits triangle_count ;;;
  stl_triangles (Z.to_nat triangle_count) vs.

(** [BinaryStlModel(fileob)] *)
Definition binary_stl_model_with (fits : Z -> bool) : M model := threedee (stl_load_with fits).

(** A machine on which every [range(n)] fits in memory. *)
Definition always_fits (n : Z) : bool := true.

Definition stl_load : list vertex -> M (list vertex) := stl_load_with always_fits.

Definition binary_stl_model : M model := binary_stl_model_with always_fits.

(** ** [auto_detect] *)

(** [not hint] for a hint that is [None] or a string. *)
Definition hint_falsy (hint : option string) : bool :=
  match hint with None => true | Some h => String.eqb h "" end.

Definition hint_is (hint : option string) (name : string) : bool :=
  match hint with None => false | Some h => String.eqb h name end.

Definition catch_parse_error (e : exn) : bool :=
  match e with ThreeDeeParseError _ => true | _ => false end.

Definition catch_parse_or_memory_error (e : exn) : bool :=
  match e with ThreeDeeParseError _ | MemoryError => true | _ => false end.

Definition final_error : exn := ThreeDeeParseError "Could not successfully parse the model :(".

(** The last statement of [auto_detect]. *)
Definition detect_fail : M model := raise final_error.

(** The binary attempt: [try: return BinaryStlModel(fileob)] with its two
    [except ...: pass] clauses, then the final [raise]. *)
Definition detect_binary_with (fits : Z -> bool) : M model :=
  try_except (binary_stl_model_with fits) catch_parse_or_memory_error detect_fail.

(** The [if hint == "stl" or not hint:] block and what follows it. *)
Definition detect_stl_with (fits : Z -> bool) (hint : option string) : M model :=
  if hint_is hint "stl" || hint_falsy hint
  then try_except obj_model catch_parse_error (detect_binary_with fits)
  else detect_fail.

(** [auto_detect(fileob, hint)] *)
Definition auto_detect_with (fits : Z -> bool) (hint : option string) : M model :=
  if hint_is hint "obj" || hint_falsy hint
  then try_except obj_model catch_parse_error (detect_stl_with fits hint)
  else detect_stl_with fits hint.

Definition detect_binary : M model := detect_binary_with always_fits.

Definition detect_stl : option string -> M model := detect_stl_with always_fits.

Definition auto_detect : option string -> M model := auto_detect_with always_fits.

(** ** Reference definitions following the specification's words *)

(** [2 ^ e] as a rational, for any integer [e]. *)
Definition pow2 (e : Z) : Q :=
  if (0 <=? e)%Z then inject_Z (2 ^ e) else / inject_Z (2 ^ (- e)).

(** The value of an IEEE-754 binary32 bit pattern ([None] for infinities
    and NaNs), the decoding the specification asks for vertex coordinates. *)
Definition ieee754_binary32_value (bits : Z) : option Q :=
  let sign := if Z.testbit bits 31 then (-1)%Z else 1%Z in
  let e := Z.land (Z.shiftr bits 23) 255 in
  let f := Z.land bits (2 ^ 23 - 1) in
  if (e =? 255)%Z then None
  else if (e =? 0)%Z then Some (Qred (inject_Z (sign * f) * pow2 (-149)))
  else Some (Qred (inject_Z (sign * (2 ^ 23 + f)) * pow2 (e - 150))).

(** [try: m except ...: pass] followed by a rewind of the stream to its
    start, as the specification describes each fallthrough. *)
Definition try_except_rewind {A} (m : M A) (catches : exn -> bool) (h : M A) : M A :=
  fun s => match m s with
           | (Err e, s') => if catches e then h (mkStream (data s') 0) else (Err e, s')
           | r => r
           end.

(** [auto_detect] with the rewind between candidates that the specification
    describes; otherwise the same candidates, order and handlers. *)
Definition auto_detect_rewinding_spec (hint : option string) : M model :=
  let binary := try_except_rewind binary_stl_model catch_parse_or_memory_error detect_fail in
  let stl := if hint_is hint "stl" || hint_falsy hint
             then try_except_rewind obj_model catch_parse_error binary
             else detect_fail in
  if hint_is hint "obj" || hint_falsy hint
  then try_except_rewind obj_model catch_parse_error stl
  else stl.

(** A byte string from byte values. *)
Definition bytes (l : list Z) : string :=
  string_of_list_ascii (map (fun z => ascii_of_nat (Z.to_nat z)) l).

Definition le32 (z : Z) : list Z :=
  [Z.land z 255; Z.land (Z.shiftr z 8) 255; Z.land (Z.shiftr z 16) 255; Z.land (Z.shiftr z 24) 255].

Definition newline : string := String "010"%char EmptyString.

(** ** Concrete inputs *)

(** The OBJ text ["v 1 2 3\nv 4 5 6\n"]. *)
Definition obj_two_vertices : string :=
  "v 1 2 3" ++ newline ++ "v 4 5 6" ++ newline.

(** Two OBJ vertices with zero and non-zero coordinates. *)
Definition obj_zero_then_five : string :=
  "v 0 0 0" ++ newline ++ "v 5 5 5" ++ newline.

(** A vertex line with only two coordinates. *)
Definition obj_short_vertex : string := "v 1 2" ++ newline.

(** A vertex line with a non-numeric fourth token. *)
Definition obj_bad_extra_token : string := "v 1 2 3 w" ++ newline.

(** A vertex line with non-numeric coordinates. *)
Definition obj_bad_tokens : string := "v a b c" ++ newline.

(** A vertex line followed by a vertex-normal line. *)
Definition obj_vertex_and_normal : string :=
  "v 1 2 3" ++ newline ++ "vn 0 0 1" ++ newline.

(** A comment line only: no vertex record. *)
Definition obj_comment_only : string := "# no vertices" ++ newline.

(** The little-endian bytes of the binary32 number [1.0]. *)
Definition one_f32 : list Z := [0; 0; 128; 63]%Z.

(** A binary STL file: zero header, one triangle with normal (0,0,0) and
    the vertices (1,0,0), (0,1,0), (0,0,1) written as binary32 numbers. *)
Definition stl_one_triangle : string :=
  bytes (repeat 0%Z 80 ++ le32 1 ++ le32 0 ++ le32 0 ++ le32 0
         ++ one_f32 ++ le32 0 ++ le32 0
         ++ le32 0 ++ one_f32 ++ le32 0
         ++ le32 0 ++ le32 0 ++ one_f32
         ++ [0; 0]%Z)%list.

(** A binary STL header declaring zero triangles. *)
Definition stl_zero_triangles : string := bytes (repeat 0%Z 80 ++ le32 0)%list.

(** A binary STL header declaring one triangle, with no triangle data. *)
Definition stl_truncated : string := bytes (repeat 0%Z 80 ++ le32 1)%list.

(** A binary STL header declaring [0xFFFFFFFF] triangles, with no triangle
    data. *)
Definition stl_huge_count : string := bytes (repeat 0%Z 80 ++ le32 (2 ^ 32 - 1))%list.

(** A machine on which [range(n)] fits only for fewer than a million
    items. *)
Definition small_memory (n : Z) : bool := (n <? 1000000)%Z.

(** ** Auxiliary notions for the proofs *)

(** [m] reads exactly [k] bytes when they are available ... *)
Definition consumes {A} (k : nat) (m : M A) : Prop :=
  forall s, (pos s + k <= String.length (data s))%nat ->
  exists a, m s = (Ok a, mkStream (data s) (pos s + k)).

(** ... and raises [struct.error] when fewer remain. *)
Definition fails_short {A} (k : nat) (m : M A) : Prop :=
  forall s, (pos s <= String.length (data s))%nat ->
  (String.length (data s) < pos s + k)%nat ->
  fst (m s) = Err StructError.

Definition reads {A} (k : nat) (m : M A) : Prop := consumes k m /\ fails_short k m.

Fixpoint total_length (ls : list string) : nat :=
  match ls with [] => 0%nat | l :: ls' => (String.length l + total_length ls')%nat end.

(** The state of one axis [i] of the statistics loop:
    [(self.average[i], self.min[i], self.max[i])]. *)
Definition axis := (pynum * option pynum * option pynum)%type.

Definition axis_of (a : acc) (i : nat) : axis :=
  (nth i (acc_average a) (PInt 0), nth i (acc_min a) None, nth i (acc_max a) None).

(** What one iteration of the inner loop of [ThreeDee.__init__] does to
    axis [i] with [num = vector[i]]. *)
Definition step_axis (st : axis) (num : pynum) : axis :=
  let '(sm, mn, mx) := st in
  if py_not mn then (py_add sm num, Some num, Some num)
  else (py_add sm num,
        match mn with Some m => if py_lt num m then Some num else mn | None => mn end,
        match mx with Some m => if py_lt m num then Some num else mx | None => mx end).

(** The three accumulator lists have one entry per axis. *)
Definition acc_wf (a : acc) : Prop :=
  List.length (acc_average a) = 3%nat /\ List.length (acc_min a) = 3%nat
  /\ List.length (acc_max a) = 3%nat.

(** Coordinate [i] of every vertex. *)
Definition coords (i : nat) (vs : list vertex) : list pynum :=
  map (fun v => nth i v (PInt 0)) vs.

(** Sum of a list of integers. *)
Definition zsum (xs : list Z) : Z := fold_right Z.add 0%Z xs.

(** [width], [depth] and [height] by axis. *)
Definition extent_of (m : model) (i : nat) : pynum := nth i [width m; depth m; height m] (PInt 0).

(** After the int axis values [p] have been processed (none of them zero):
    the minimum and maximum are set, are values of [p] and bound all of them,
    and the running total is their sum. *)
Definition axis_exact (p : list Z) (st : axis) : Prop :=
  let '(sm, mn, mx) := st in
  exists lo hi, mn = Some (PInt lo) /\ mx = Some (PInt hi) /\ In lo p /\ In hi p
    /\ (forall x, In x p -> (lo <= x <= hi)%Z)
    /\ sm = PInt (zsum p).

(** An axis state whose minimum and maximum are both unset or both set. *)
Definition axis_good (st : axis) : Prop :=
  let '(_, mn, mx) := st in
  (mn = None /\ mx = None) \/ exists lo hi, mn = Some lo /\ mx = Some hi.

(** The same for int values, the set minimum not above the maximum. *)
Definition axis_int_good (st : axis) : Prop :=
  let '(_, mn, mx) := st in
  (mn = None /\ mx = None)
  \/ exists lo hi, mn = Some (PInt lo) /\ mx = Some (PInt hi) /\ (lo <= hi)%Z.

(** Every coordinate of every vertex is a Python int. *)
Definition int_vertices (vs : list vertex) : Prop :=
  Forall (Forall (fun x => exists z, x = PInt z)) vs.

(** The ["<i"] field at byte offset [off] of [d], as [__num(fileob, "real")]
    returns it once the stream is there. *)
Definition real_at (d : string) (off : nat) : pynum :=
  PInt (signed32 (le_unsigned (substring off 4 d))).

(** The three fields of a [__vector] record at offset [off]. *)
Definition vec_at (d : string) (off : nat) : vertex :=
  [real_at d off; real_at d (off + 4); real_at d (off + 8)].

(** The vertices of [n] consecutive 50-byte triangle records starting at
    offset [p]: each record is a normal (skipped), three vertices and a
    2-byte attribute count (skipped). *)
Fixpoint stl_records (d : string) (p n : nat) : list vertex :=
  match n with
  | O => []
  | S n' => [vec_at d (p + 12); vec_at d (p + 24); vec_at d (p + 36)] ++ stl_records d (p + 50) n'
  end.

(** The triangle count stored at bytes 80..83. *)
Definition stl_count (d : string) : nat := Z.to_nat (le_unsigned (substring 80 4 d)).

(** The same count as the Python int [struct.unpack] returns. *)
Definition stl_count_z (d : string) : Z := le_unsigned (substring 80 4 d).

(** A loaded model has at least one vertex, each of three coordinates. *)
Definition model_shape (m : model) : Prop :=
  verts m <> [] /\ Forall (fun v => List.length v = 3%nat) (verts m).

(** Every model a parser returns has that shape. *)
Definition ok_models (mm : M model) : Prop :=
  forall s m s', mm s = (Ok m, s') -> model_shape m.

(** Every coordinate is a Python int in the signed 32-bit range. *)
Definition int32_vertex (v : vertex) : Prop :=
  Forall (fun x => exists z, x = PInt z /\ (- 2 ^ 31 <= z < 2 ^ 31)%Z) v.

(** * Properties *)

(** ** Unfolding the loaders on a machine where every [range] fits *)

Lemma stl_load_eq :
  stl_load = fun vs => (seek 80 ;;; triangle_count <- stl_num Uint ;;
                        stl_triangles (Z.to_nat triangle_count) vs).
Proof. reflexivity. Qed.

Lemma binary_stl_model_eq : binary_stl_model = threedee stl_load.
Proof. reflexivity. Qed.

Lemma detect_binary_eq :
  detect_binary = try_except binary_stl_model catch_parse_or_memory_error detect_fail.
Proof. reflexivity. Qed.

Lemma detect_stl_eq (hint : option string) :
  detect_stl hint = if hint_is hint "stl" || hint_falsy hint
                    then try_except obj_model catch_parse_error detect_binary
                    else detect_fail.
Proof. reflexivity. Qed.

Lemma auto_detect_eq (hint : option string) :
  auto_detect hint = if hint_is hint "obj" || hint_falsy hint
                     then try_except obj_model catch_parse_error (detect_stl hint)
                     else detect_stl hint.
Proof. reflexivity. Qed.

(** ** Evaluations on concrete inputs *)

(** C9: the OBJ text ["v 1 2 3\nv 4 5 6\n"] parses to the vertices
    (1,2,3), (4,5,6) in order, with min (1,2,3), max (4,5,6), average
    (2.5,3.5,4.5) and width, depth and height 3. *)
Theorem obj_two_vertices_model :
  fst (obj_model (mkStream obj_two_vertices 0)) =
  Ok (mkModel [[PFloat 1; PFloat 2; PFloat 3]; [PFloat 4; PFloat 5; PFloat 6]]
              [PFloat (5 # 2); PFloat (7 # 2); PFloat (9 # 2)]
              [Some (PFloat 1); Some (PFloat 2); Some (PFloat 3)]
              [Some (PFloat 4); Some (PFloat 5); Some (PFloat 6)]
              (PFloat 3) (PFloat 3) (PFloat 3)).
Proof. vm_compute. reflexivity. Qed.

(** C1: on ["v 0 0 0\nv 5 5 5\n"] the loader reports min (5,5,5) instead of
    (0,0,0), because [not self.min[i]] also holds for a minimum of 0; the
    average 2.5 then lies below the reported minimum. *)
Theorem obj_zero_coordinate_min :
  fst (obj_model (mkStream obj_zero_then_five 0)) =
  Ok (mkModel [[PFloat 0; PFloat 0; PFloat 0]; [PFloat 5; PFloat 5; PFloat 5]]
              [PFloat (5 # 2); PFloat (5 # 2); PFloat (5 # 2)]
              [Some (PFloat 5); Some (PFloat 5); Some (PFloat 5)]
              [Some (PFloat 5); Some (PFloat 5); Some (PFloat 5)]
              (PFloat 0) (PFloat 0) (PFloat 0))
  /\ py_lt (PFloat (5 # 2)) (PFloat 5) = true.
Proof. split; vm_compute; reflexivity. Qed.

(** C2: a coordinate field is decoded by [struct.unpack("<i", ...)]: the
    bytes 00 00 80 3F, whose binary32 value is 1, decode to the integer
    1065353216, and the one-triangle file with unit vertices yields vertex
    coordinates 1065353216. *)
Theorem stl_real_field_decoding :
  fst (stl_num Real (mkStream (bytes one_f32) 0)) = Ok 1065353216%Z
  /\ ieee754_binary32_value (le_unsigned (bytes one_f32)) = Some 1
  /\ option_map verts (match fst (binary_stl_model (mkStream stl_one_triangle 0)) with
                      | Ok m => Some m | Err _ => None end)
     = Some [[PInt 1065353216; PInt 0; PInt 0];
             [PInt 0; PInt 1065353216; PInt 0];
             [PInt 0; PInt 0; PInt 1065353216]].
Proof. split; [|split]; vm_compute; reflexivity. Qed.

(** C3 (counterexample): the stream ["v 1 2 3\n"] positioned at its end,
    with no hint: the code's second ObjModel attempt reads from where the
    first one stopped and the binary attempt fails with [struct.error],
    whereas with a rewind to offset 0 before the second attempt the vertex
    line is read and a model is returned. *)
Lemma auto_detect_no_rewind_cex :
  fst (auto_detect None (mkStream ("v 1 2 3" ++ newline) 8)) = Err StructError
  /\ fst (auto_detect_rewinding_spec None (mkStream ("v 1 2 3" ++ newline) 8))
     = Ok (mkModel [[PFloat 1; PFloat 2; PFloat 3]] [PFloat 1; PFloat 2; PFloat 3]
                   [Some (PFloat 1); Some (PFloat 2); Some (PFloat 3)]
                   [Some (PFloat 1); Some (PFloat 2); Some (PFloat 3)]
                   (PFloat 0) (PFloat 0) (PFloat 0)).
Proof. split; vm_compute; reflexivity. Qed.

(** C4 (counterexample): a non-numeric token raises [ValueError] out of
    [auto_detect], and a binary file declaring a triangle it does not
    contain raises [struct.error]; neither is the final parse error. *)
Lemma auto_detect_propagates_cex :
  fst (auto_detect None (mkStream obj_bad_tokens 0)) = Err ValueError
  /\ fst (auto_detect (Some "stl") (mkStream stl_truncated 0)) = Err StructError
  /\ ValueError <> final_error /\ StructError <> final_error.
Proof. split; [|split; [|split]]; try (vm_compute; reflexivity); discriminate. Qed.

(** C5 (counterexample): a binary STL file declaring one triangle and
    ending after the count makes [BinaryStlModel] fail with [struct.error],
    which is not the library's typed parse error. *)
Lemma stl_truncated_cex :
  fst (binary_stl_model (mkStream stl_truncated 0)) = Err StructError
  /\ catch_parse_error StructError = false.
Proof. split; vm_compute; reflexivity. Qed.

(** C6 (counterexample): ["v 1 2\n"] makes [ObjModel] fail with
    [IndexError], not a parse error of the library; and a non-numeric fourth
    token is not ignored but raises [ValueError]. *)
Lemma obj_short_vertex_cex :
  fst (obj_model (mkStream obj_short_vertex 0)) = Err IndexError
  /\ fst (obj_model (mkStream obj_bad_extra_token 0)) = Err ValueError.
Proof. split; vm_compute; reflexivity. Qed.

(** C7 (counterexample): the vertex-normal line ["vn 0 0 1"] is not skipped,
    it contributes the vertex (0,0,1). *)
Lemma obj_normal_line_cex :
  option_map verts (match fst (obj_model (mkStream obj_vertex_and_normal 0)) with
                    | Ok m => Some m | Err _ => None end)
  = Some [[PFloat 1; PFloat 2; PFloat 3]; [PFloat 0; PFloat 0; PFloat 1]].
Proof. vm_compute. reflexivity. Qed.

(** ** Helper lemmas *)

Lemma substring_length (s : string) (n m : nat) :
  String.length (substring n m s) = Nat.min m (String.length s - n).
Proof.
  revert n m. induction s as [|c s IH]; intros n m.
  - destruct n, m; reflexivity.
  - destruct n as [|n].
    + destruct m as [|m]; [reflexivity|]. simpl. f_equal.
      rewrite IH. f_equal. lia.
    + simpl. apply IH.
Qed.

Lemma obj_load_lines_no_v (ls : list string) (vs : list vertex) (s : stream) :
  forallb (fun l => negb (starts_with_v l)) ls = true ->
  fst (obj_load_lines ls vs s) = Ok vs.
Proof.
  revert s. induction ls as [|l ls IH]; intros s H; [reflexivity|].
  simpl in H. apply andb_prop in H as [Hl Hls].
  apply negb_true_iff in Hl. simpl. unfold bind at 1, advance. rewrite Hl.
  apply IH. exact Hls.
Qed.

(** ** Hints *)

(** C10: a non-empty hint other than ["obj"] and ["stl"] makes
    [auto_detect] raise the final parse error at once, leaving the stream
    untouched (no parser reads or seeks it). *)
Theorem auto_detect_other_hint (h : string) (s : stream) :
  h <> "" -> h <> "obj" -> h <> "stl" ->
  auto_detect (Some h) s = (Err final_error, s).
Proof.
  intros H0 H1 H2. rewrite auto_detect_eq, !detect_stl_eq. unfold hint_is, hint_falsy.
  apply String.eqb_neq in H0, H1, H2. rewrite H0, H1, H2. reflexivity.
Qed.

Lemma auto_detect_other_hint_witness :
  ("ply" <> "" /\ "ply" <> "obj" /\ "ply" <> "stl")
  /\ auto_detect (Some "ply") (mkStream obj_two_vertices 0)
     = (Err final_error, mkStream obj_two_vertices 0).
Proof.
  split; [split; [discriminate | split; discriminate] |].
  apply auto_detect_other_hint; discriminate.
Defined.

(** ** Empty models *)

(** C8: an OBJ stream with no line starting with ['v'] and a binary STL
    stream declaring zero triangles both fail with the parse error
    ["Empyt model."] and produce no model. *)
Theorem empty_model_errors :
  (forall (load : list vertex -> M (list vertex)) (s s' : stream),
      load [] s = (Ok [], s') ->
      threedee load s = (Err (ThreeDeeParseError "Empyt model."), s'))
  /\ (forall s1 : stream,
      forallb (fun l => negb (starts_with_v l)) (split_lines (rest s1)) = true ->
      fst (obj_model s1) = Err (ThreeDeeParseError "Empyt model."))
  /\ (forall s2 : stream,
      (84 <= String.length (data s2))%nat ->
      le_unsigned (substring 80 4 (data s2)) = 0%Z ->
      fst (binary_stl_model s2) = Err (ThreeDeeParseError "Empyt model.")).
Proof.
  split; [|split].
  - intros load s s' H. unfold threedee, bind. rewrite H. reflexivity.
  - intros s1 Hobj. unfold obj_model, threedee, bind, obj_load.
    pose proof (obj_load_lines_no_v _ [] s1 Hobj) as H.
    destruct (obj_load_lines (split_lines (rest s1)) [] s1) as [r s'].
    simpl in H. subst r. reflexivity.
  - intros s2 Hlen Hcount.
    assert (Hl : String.length (substring 80 4 (data s2)) = 4%nat).
    { rewrite substring_length. lia. }
    cbv [binary_stl_model binary_stl_model_with threedee stl_load stl_load_with range_alloc always_fits ret stl_num read lift seek unpack num_width bind].
    cbn [data pos]. rewrite Hl. cbn -[substring le_unsigned]. rewrite Hcount. reflexivity.
Qed.

Lemma empty_model_errors_witness :
  obj_load [] (mkStream obj_comment_only 0) = (Ok [], mkStream obj_comment_only 14)
  /\ threedee obj_load (mkStream obj_comment_only 0)
     = (Err (ThreeDeeParseError "Empyt model."), mkStream obj_comment_only 14)
  /\ fst (obj_model (mkStream obj_comment_only 0)) = Err (ThreeDeeParseError "Empyt model.")
  /\ fst (binary_stl_model (mkStream stl_zero_triangles 0))
     = Err (ThreeDeeParseError "Empyt model.").
Proof.
  destruct empty_model_errors as [H1 [H2 H3]].
  assert (H : obj_load [] (mkStream obj_comment_only 0) = (Ok [], mkStream obj_comment_only 14))
    by (vm_compute; reflexivity).
  split; [exact H | split; [exact (H1 _ _ _ H) | split]].
  - apply H2. vm_compute. reflexivity.
  - apply H3; [apply Nat.leb_le; vm_compute; reflexivity | vm_compute; reflexivity].
Defined.

(** ** Truncated binary input *)

Lemma bind_err {A B} (m : M A) (f : A -> M B) (s : stream) (e : exn) :
  fst (m s) = Err e -> fst (bind m f s) = Err e.
Proof.
  unfold bind. destruct (m s) as [[a|e'] s']; simpl; congruence.
Qed.

Lemma reads_ret {A} (a : A) : reads 0 (ret a).
Proof.
  split.
  - intros [d p] _. exists a. simpl. rewrite Nat.add_0_r. reflexivity.
  - intros s H1 H2. lia.
Qed.

Lemma reads_bind {A B} (k k1 k2 : nat) (m : M A) (f : A -> M B) :
  reads k1 m -> (forall a, reads k2 (f a)) -> k = (k1 + k2)%nat ->
  reads k (bind m f).
Proof.
  intros [Hc Hf] Hk ->. split.
  - intros s Hs. destruct (Hc s) as [a Ha]; [lia|].
    destruct (proj1 (Hk a) (mkStream (data s) (pos s + k1))) as [b Hb]; [simpl; lia|].
    exists b. unfold bind. rewrite Ha, Hb. simpl. rewrite Nat.add_assoc. reflexivity.
  - intros s Hle Hlt. destruct (Nat.le_gt_cases (pos s + k1) (String.length (data s))) as [H|H].
    + destruct (Hc s H) as [a Ha]. unfold bind. rewrite Ha.
      apply (proj2 (Hk a)); simpl; lia.
    + apply bind_err. apply Hf; lia.
Qed.

Lemma stl_num_short (h : num_hint) (s : stream) :
  (String.length (data s) < pos s + num_width h)%nat ->
  fst (stl_num h s) = Err StructError.
Proof.
  intros H. cbv [stl_num bind read lift]. cbn [fst data pos].
  assert (Hl : String.length (substring (pos s) (num_width h) (data s)) <> num_width h).
  { rewrite substring_length. destruct h; simpl num_width in H |- *; lia. }
  destruct h; simpl in Hl |- *; apply Nat.eqb_neq in Hl; rewrite Hl; reflexivity.
Qed.

Lemma reads_stl_num (h : num_hint) : reads (num_width h) (stl_num h).
Proof.
  split.
  - intros s H. cbv [stl_num bind read lift].
    assert (Hl : String.length (substring (pos s) (num_width h) (data s)) = num_width h).
    { rewrite substring_length. lia. }
    rewrite Hl. destruct h; simpl in Hl |- *; rewrite Hl; simpl; eexists; reflexivity.
  - intros s _ H. apply stl_num_short. exact H.
Qed.

Lemma reads_stl_vector : reads 12 stl_vector.
Proof.
  unfold stl_vector.
  eapply reads_bind; [apply (reads_stl_num Real) | intros x | reflexivity].
  eapply reads_bind; [apply (reads_stl_num Real) | intros y | reflexivity].
  eapply reads_bind; [apply (reads_stl_num Real) | intros z | reflexivity].
  apply reads_ret.
Qed.

Lemma reads_stl_triangle (vs : list vertex) : reads 50 (stl_triangle vs).
Proof.
  unfold stl_triangle.
  eapply reads_bind; [apply reads_stl_vector | intros _ | reflexivity].
  eapply reads_bind; [apply reads_stl_vector | intros v0 | reflexivity].
  eapply reads_bind; [apply reads_stl_vector | intros v1 | reflexivity].
  eapply reads_bind; [apply reads_stl_vector | intros v2 | reflexivity].
  eapply reads_bind; [apply (reads_stl_num Short) | intros _ | reflexivity].
  apply reads_ret.
Qed.

Lemma reads_stl_triangles (n : nat) (vs : list vertex) :
  reads (50 * n) (stl_triangles n vs).
Proof.
  revert vs. induction n as [|n IH]; intros vs.
  - apply reads_ret.
  - simpl stl_triangles.
    eapply reads_bind; [apply reads_stl_triangle | intros vs'; apply IH | lia].
Qed.

(** C5: every [__num] read that finds fewer bytes than its width raises
    [struct.error], and a binary STL file shorter than the 84 bytes of
    header and count plus 50 bytes per declared triangle makes
    [BinaryStlModel] fail with [struct.error]: an untyped exception, not the
    library's [ThreeDeeParseError]. *)
Theorem stl_truncated_struct_error :
  (forall (h : num_hint) (s : stream),
      (String.length (data s) < pos s + num_width h)%nat ->
      fst (stl_num h s) = Err StructError)
  /\ (forall s : stream,
      (String.length (data s) < 84 + 50 * Z.to_nat (le_unsigned (substring 80 4 (data s))))%nat ->
      fst (binary_stl_model s) = Err StructError).
Proof.
  split; [exact stl_num_short|].
  intros s H. rewrite binary_stl_model_eq. unfold threedee. apply bind_err.
  rewrite stl_load_eq. cbv beta. set (s80 := mkStream (data s) 80).
  change (fst (bind (stl_num Uint) (fun c => stl_triangles (Z.to_nat c) []) s80) = Err StructError).
  destruct (Nat.le_gt_cases 84 (String.length (data s))) as [Hl|Hl].
  - destruct (proj1 (reads_stl_num Uint) s80) as [c Hc]; [simpl; lia|].
    assert (Hcv : c = le_unsigned (substring 80 4 (data s))).
    { revert Hc. cbv [stl_num bind read lift unpack num_width]. simpl pos. simpl data.
      rewrite substring_length. replace (Nat.min 4 (String.length (data s) - 80)) with 4%nat by lia.
      simpl. intros Hc. inversion Hc. reflexivity. }
    unfold bind. rewrite Hc. apply (proj2 (reads_stl_triangles _ [])); simpl; subst c; lia.
  - apply bind_err. apply stl_num_short. simpl. lia.
Qed.

Lemma stl_truncated_struct_error_witness :
  fst (stl_num Uint (mkStream (bytes [1; 2]%Z) 0)) = Err StructError
  /\ fst (binary_stl_model (mkStream stl_truncated 0)) = Err StructError.
Proof.
  split.
  - apply (proj1 stl_truncated_struct_error). simpl. lia.
  - apply (proj2 stl_truncated_struct_error). apply Nat.ltb_lt. vm_compute. reflexivity.
Defined.

(** ** Vertex records *)

Lemma obj_load_lines_vertices (ls : list string) (acc0 vs : list vertex) (s s' : stream) :
  obj_load_lines ls acc0 s = (Ok vs, s') ->
  map Ok vs = (map Ok acc0 ++ map obj_vector (filter starts_with_v ls))%list.
Proof.
  revert acc0 s. induction ls as [|l ls IH]; intros acc0 s H.
  - simpl in H. injection H as <- _. simpl. rewrite app_nil_r. reflexivity.
  - simpl in H. unfold bind at 1, advance in H. simpl filter.
    destruct (starts_with_v l).
    + unfold bind, lift in H. destruct (obj_vector l) as [v|e] eqn:Hv; [|discriminate].
      apply IH in H. rewrite H, map_app, <- app_assoc. simpl. rewrite Hv. reflexivity.
    + apply IH in H. exact H.
Qed.

(** C7 (as amended): [ObjModel.load] turns exactly the lines whose first
    character is ['v'] into vertices, in order, each by [__vector]; every
    other line is skipped, but lines such as ["vn ..."] or ["vt ..."] are
    vertex records too. *)
Theorem obj_load_v_lines (s s' : stream) (vs : list vertex) :
  obj_load [] s = (Ok vs, s') ->
  map Ok vs = map obj_vector (filter starts_with_v (split_lines (rest s))).
Proof.
  intros H. apply obj_load_lines_vertices in H. exact H.
Qed.

Lemma obj_load_v_lines_witness :
  obj_load [] (mkStream obj_vertex_and_normal 0)
  = (Ok [[PFloat 1; PFloat 2; PFloat 3]; [PFloat 0; PFloat 0; PFloat 1]],
     mkStream obj_vertex_and_normal 17)
  /\ map Ok [[PFloat 1; PFloat 2; PFloat 3]; [PFloat 0; PFloat 0; PFloat 1]]
     = map obj_vector (filter starts_with_v (split_lines (rest (mkStream obj_vertex_and_normal 0)))).
Proof.
  assert (H : obj_load [] (mkStream obj_vertex_and_normal 0)
              = (Ok [[PFloat 1; PFloat 2; PFloat 3]; [PFloat 0; PFloat 0; PFloat 1]],
                 mkStream obj_vertex_and_normal 17)) by (vm_compute; reflexivity).
  split; [exact H | exact (obj_load_v_lines _ _ _ H)].
Defined.

Lemma map_float_value_error (toks : list string) (t : string) :
  In t toks -> parse_float t = None -> map_float toks = Err ValueError.
Proof.
  induction toks as [|t' ts IH]; intros Hin Ht; [destruct Hin|].
  simpl. destruct (parse_float t') as [q|] eqn:Hq; [|reflexivity].
  destruct Hin as [<-|Hin]; [congruence|].
  rewrite (IH Hin Ht). reflexivity.
Qed.

Lemma map_float_length (toks : list string) (nums : list pynum) :
  map_float toks = Ok nums -> List.length nums = List.length toks.
Proof.
  revert nums. induction toks as [|t ts IH]; intros nums H.
  - injection H as <-. reflexivity.
  - simpl in H. destruct (parse_float t); [|discriminate].
    destruct (map_float ts) as [ns|e] eqn:Hn; [|discriminate].
    injection H as <-. simpl. rewrite (IH ns eq_refl). reflexivity.
Qed.

Lemma stat_step_ok (v : vertex) (a : acc) (i : nat) (n : pynum) :
  nth_error v i = Some n -> exists a', stat_step v a i = Ok a'.
Proof.
  intros H. unfold stat_step. rewrite H.
  destruct (py_not _); [eexists; reflexivity|].
  eexists; reflexivity.
Qed.

Lemma stat_vector_short (v : vertex) (a : acc) :
  (List.length v < 3)%nat -> stat_vector v a = Err IndexError.
Proof.
  intros H. unfold stat_vector.
  destruct v as [|x [|y [|z r]]]; simpl in H; try lia.
  - reflexivity.
  - destruct (stat_step_ok [x] a 0 x eq_refl) as [a1 ->]. reflexivity.
  - destruct (stat_step_ok [x; y] a 0 x eq_refl) as [a1 ->]. simpl rbind.
    destruct (stat_step_ok [x; y] a1 1 y eq_refl) as [a2 ->]. reflexivity.
Qed.

Lemma stat_vector_long (v : vertex) (a : acc) :
  (3 <= List.length v)%nat -> exists a', stat_vector v a = Ok a'.
Proof.
  intros H. unfold stat_vector.
  destruct v as [|x [|y [|z r]]]; simpl in H; try lia.
  destruct (stat_step_ok (x :: y :: z :: r) a 0 x eq_refl) as [a1 ->]. simpl rbind.
  destruct (stat_step_ok (x :: y :: z :: r) a1 1 y eq_refl) as [a2 ->]. simpl rbind.
  apply (stat_step_ok (x :: y :: z :: r) a2 2 z eq_refl).
Qed.

Lemma stat_verts_short (vs : list vertex) (a : acc) :
  Exists (fun v => List.length v < 3)%nat vs -> stat_verts vs a = Err IndexError.
Proof.
  revert a. induction vs as [|v vs IH]; intros a H; [inversion H|].
  simpl. destruct (Nat.lt_ge_cases (List.length v) 3) as [Hv|Hv].
  - rewrite (stat_vector_short v a Hv). reflexivity.
  - destruct (stat_vector_long v a Hv) as [a' ->]. simpl.
    apply IH. inversion H; subst; [lia | assumption].
Qed.

(** C6 (as amended): every token after the ['v'] marker goes through
    [float()], so a token [float()] rejects (neither a decimal literal nor
    [inf], [infinity] or [nan]) anywhere on the line, even after the third,
    raises [ValueError]; otherwise the vertex is the first
    [min 3 n] numbers of the [n] tokens; and a vertex with fewer than three
    components makes [ObjModel] fail with [IndexError] (not with
    [ThreeDeeParseError]) when the statistics are computed. *)
Theorem obj_vertex_record_errors :
  (forall (line t : string),
      In t (tl (split_space (strip line))) -> parse_float t = None ->
      obj_vector line = Err ValueError)
  /\ (forall (line : string) (nums : list pynum),
      map_float (tl (split_space (strip line))) = Ok nums ->
      obj_vector line = Ok (firstn 3 nums)
      /\ List.length (firstn 3 nums) = Nat.min 3 (List.length (tl (split_space (strip line)))))
  /\ (forall (s s' : stream) (vs : list vertex),
      obj_load [] s = (Ok vs, s') ->
      Exists (fun v => List.length v < 3)%nat vs ->
      obj_model s = (Err IndexError, s')).
Proof.
  split; [|split].
  - intros line t Hin Ht. unfold obj_vector.
    rewrite (map_float_value_error _ t Hin Ht). reflexivity.
  - intros line nums H. unfold obj_vector. rewrite H. split; [reflexivity|].
    rewrite length_firstn, (map_float_length _ _ H). reflexivity.
  - intros s s' vs Hload Hshort. unfold obj_model, threedee, bind.
    rewrite Hload. destruct vs as [|v vs']; [inversion Hshort|].
    unfold lift, stats. rewrite (stat_verts_short _ acc_init Hshort). reflexivity.
Qed.

Lemma obj_vertex_record_errors_witness :
  obj_vector ("v 1 2 3 w" ++ newline) = Err ValueError
  /\ (obj_vector obj_short_vertex = Ok (firstn 3 [PFloat 1; PFloat 2])
      /\ List.length (firstn 3 [PFloat 1; PFloat 2])
         = Nat.min 3 (List.length (tl (split_space (strip obj_short_vertex)))))
  /\ obj_model (mkStream obj_short_vertex 0) = (Err IndexError, mkStream obj_short_vertex 6).
Proof.
  destruct obj_vertex_record_errors as [H1 [H2 H3]]. split; [|split].
  - apply (H1 _ "w"); vm_compute; [right; right; right; left; reflexivity | reflexivity].
  - apply (H2 _ [PFloat 1; PFloat 2]). vm_compute. reflexivity.
  - apply (H3 _ _ [[PFloat 1; PFloat 2]]);
      [vm_compute; reflexivity | constructor; simpl; lia].
Defined.

(** ** Fallthrough in [auto_detect] *)

Lemma try_except_err {A} (m h : M A) (c : exn -> bool) (s s' : stream) (e : exn) :
  try_except m c h s = (Err e, s') -> c e = false \/ exists s1, h s1 = (Err e, s').
Proof.
  unfold try_except. destruct (m s) as [[a|e'] s1].
  - discriminate.
  - destruct (c e') eqn:Hc.
    + intros H. right. exists s1. exact H.
    + intros H. injection H as -> _. left. exact Hc.
Qed.

Lemma detect_binary_err (fits : Z -> bool) (s s' : stream) (e : exn) :
  detect_binary_with fits s = (Err e, s') -> e = final_error \/ catch_parse_error e = false.
Proof.
  intros H. apply try_except_err in H as [H|[s1 H]].
  - right. destruct e; simpl in *; congruence.
  - left. injection H as <- _. reflexivity.
Qed.

Lemma detect_stl_err (fits : Z -> bool) (hint : option string) (s s' : stream) (e : exn) :
  detect_stl_with fits hint s = (Err e, s') -> e = final_error \/ catch_parse_error e = false.
Proof.
  unfold detect_stl_with. destruct (hint_is hint "stl" || hint_falsy hint).
  - intros H. apply try_except_err in H as [H|[s1 H]]; [right; exact H|].
    exact (detect_binary_err _ _ _ _ H).
  - intros H. left. injection H as <- _. reflexivity.
Qed.

(** C4 (as amended), for any amount of memory [fits]: [auto_detect] catches
    only [ThreeDeeParseError] from each [ObjModel] attempt, and
    [ThreeDeeParseError] or [MemoryError] from the [BinaryStlModel] attempt;
    those fall through to the next candidate (the last one to the final
    parse error), every other error of an attempt (such as [ValueError],
    [IndexError] or [struct.error]) leaves [auto_detect] at once.  So an
    error of [auto_detect] is either its final parse error or one that is
    not a [ThreeDeeParseError].  The parts: the shape of the errors; the
    first [ObjModel] attempt (hint ["obj"] or none); the hints that skip it;
    the second [ObjModel] attempt (hint ["stl"] or none); the hints that
    skip it; the [BinaryStlModel] attempt. *)
Theorem auto_detect_error_propagation :
  (forall (fits : Z -> bool) (hint : option string) (s s' : stream) (e : exn),
      auto_detect_with fits hint s = (Err e, s') -> e = final_error \/ catch_parse_error e = false)
  /\ (forall (fits : Z -> bool) (hint : option string) (s s' : stream) (e : exn),
      hint_is hint "obj" || hint_falsy hint = true ->
      obj_model s = (Err e, s') ->
      auto_detect_with fits hint s
      = if catch_parse_error e then detect_stl_with fits hint s' else (Err e, s'))
  /\ (forall (fits : Z -> bool) (hint : option string),
      hint_is hint "obj" || hint_falsy hint = false ->
      auto_detect_with fits hint = detect_stl_with fits hint)
  /\ (forall (fits : Z -> bool) (hint : option string) (s s' : stream) (e : exn),
      hint_is hint "stl" || hint_falsy hint = true ->
      obj_model s = (Err e, s') ->
      detect_stl_with fits hint s
      = if catch_parse_error e then detect_binary_with fits s' else (Err e, s'))
  /\ (forall (fits : Z -> bool) (hint : option string) (s : stream),
      hint_is hint "stl" || hint_falsy hint = false ->
      detect_stl_with fits hint s = (Err final_error, s))
  /\ (forall (fits : Z -> bool) (s s' : stream) (e : exn),
      binary_stl_model_with fits s = (Err e, s') ->
      detect_binary_with fits s
      = (Err (if catch_parse_or_memory_error e then final_error else e), s')).
Proof.
  split; [|split; [|split; [|split; [|split]]]].
  - intros fits hint s s' e. unfold auto_detect_with.
    destruct (hint_is hint "obj" || hint_falsy hint).
    + intros H. apply try_except_err in H as [H|[s1 H]]; [right; exact H|].
      exact (detect_stl_err _ _ _ _ _ H).
    + apply detect_stl_err.
  - intros fits hint s s' e Hh Hm. unfold auto_detect_with. rewrite Hh.
    unfold try_except. rewrite Hm. reflexivity.
  - intros fits hint Hh. unfold auto_detect_with. rewrite Hh. reflexivity.
  - intros fits hint s s' e Hh Hm. unfold detect_stl_with. rewrite Hh.
    unfold try_except. rewrite Hm. reflexivity.
  - intros fits hint s Hh. unfold detect_stl_with. rewrite Hh. reflexivity.
  - intros fits s s' e Hb. unfold detect_binary_with, try_except. rewrite Hb.
    destruct (catch_parse_or_memory_error e); reflexivity.
Qed.

Lemma auto_detect_error_propagation_witness :
  (ValueError = final_error \/ catch_parse_error ValueError = false)
  /\ auto_detect None (mkStream obj_bad_tokens 0) = (Err ValueError, mkStream obj_bad_tokens 8)
  /\ auto_detect None (mkStream obj_comment_only 0)
     = detect_stl None (mkStream obj_comment_only 14)
  /\ auto_detect_with small_memory (Some "x") = detect_stl_with small_memory (Some "x")
  /\ detect_stl (Some "stl") (mkStream stl_truncated 0) = detect_binary (mkStream stl_truncated 84)
  /\ detect_stl_with small_memory (Some "obj") (mkStream obj_bad_tokens 0)
     = (Err final_error, mkStream obj_bad_tokens 0)
  /\ binary_stl_model_with small_memory (mkStream stl_huge_count 0)
     = (Err MemoryError, mkStream stl_huge_count 84)
  /\ detect_binary_with small_memory (mkStream stl_huge_count 0)
     = (Err final_error, mkStream stl_huge_count 84)
  /\ detect_binary (mkStream stl_truncated 0) = (Err StructError, mkStream stl_truncated 84).
Proof.
  destruct auto_detect_error_propagation as [H1 [H2 [H3 [H4 [H5 H6]]]]].
  assert (Hv : obj_model (mkStream obj_bad_tokens 0) = (Err ValueError, mkStream obj_bad_tokens 8))
    by (vm_compute; reflexivity).
  assert (Hm : binary_stl_model_with small_memory (mkStream stl_huge_count 0)
               = (Err MemoryError, mkStream stl_huge_count 84)) by (vm_compute; reflexivity).
  split; [|split; [|split; [|split; [|split; [|split; [|split; [|split]]]]]]].
  - apply (H1 always_fits None (mkStream obj_bad_tokens 0) (mkStream obj_bad_tokens 8)).
    exact (H2 always_fits None _ _ ValueError eq_refl Hv).
  - exact (H2 always_fits None _ _ ValueError eq_refl Hv).
  - exact (H2 always_fits None (mkStream obj_comment_only 0) (mkStream obj_comment_only 14)
             (ThreeDeeParseError "Empyt model.") eq_refl ltac:(vm_compute; reflexivity)).
  - exact (H3 small_memory (Some "x") eq_refl).
  - exact (H4 always_fits (Some "stl") (mkStream stl_truncated 0) (mkStream stl_truncated 84)
             (ThreeDeeParseError "Empyt model.") eq_refl ltac:(vm_compute; reflexivity)).
  - exact (H5 small_memory (Some "obj") _ eq_refl).
  - exact Hm.
  - exact (H6 small_memory _ _ MemoryError Hm).
  - exact (H6 always_fits (mkStream stl_truncated 0) (mkStream stl_truncated 84) StructError
             ltac:(vm_compute; reflexivity)).
Defined.

(** ** Stream position across attempts *)

Lemma string_append_length (a b : string) :
  String.length (a ++ b) = (String.length a + String.length b)%nat.
Proof. induction a as [|c a IH]; simpl; [reflexivity | rewrite IH; reflexivity]. Qed.

Lemma split_lines_acc_length (cur t : string) :
  total_length (split_lines_acc cur t) = (String.length cur + String.length t)%nat.
Proof.
  revert cur. induction t as [|c t IH]; intros cur.
  - destruct cur; simpl; lia.
  - simpl. destruct (Ascii.eqb c "010"%char); simpl;
      [rewrite IH | rewrite IH]; rewrite string_append_length; simpl; lia.
Qed.

Lemma obj_load_lines_ok_pos (ls : list string) (acc0 vs : list vertex) (s s' : stream) :
  obj_load_lines ls acc0 s = (Ok vs, s') ->
  s' = mkStream (data s) (pos s + total_length ls).
Proof.
  revert acc0 s. induction ls as [|l ls IH]; intros acc0 s H.
  - simpl in H. injection H as _ <-. destruct s; simpl. rewrite Nat.add_0_r. reflexivity.
  - simpl in H. unfold bind at 1, advance in H.
    destruct (starts_with_v l).
    + unfold bind, lift in H. destruct (obj_vector l); [|discriminate].
      apply IH in H. rewrite H. simpl. rewrite Nat.add_assoc. reflexivity.
    + apply IH in H. rewrite H. simpl. rewrite Nat.add_assoc. reflexivity.
Qed.

Lemma obj_vector_err (line : string) (e : exn) : obj_vector line = Err e -> e = ValueError.
Proof.
  unfold obj_vector. generalize (tl (split_space (strip line))) as toks.
  intros toks. induction toks as [|t ts IH]; simpl; [discriminate|].
  destruct (parse_float t); [|congruence].
  destruct (map_float ts) as [ns|e'] eqn:Hts; [discriminate|].
  intros H. injection H as <-. apply IH. reflexivity.
Qed.

Lemma obj_load_lines_err (ls : list string) (acc0 : list vertex) (s s' : stream) (e : exn) :
  obj_load_lines ls acc0 s = (Err e, s') -> e = ValueError.
Proof.
  revert acc0 s. induction ls as [|l ls IH]; intros acc0 s H; [discriminate|].
  simpl in H. unfold bind at 1, advance in H.
  destruct (starts_with_v l).
  - unfold bind, lift in H. destruct (obj_vector l) eqn:Hv.
    + exact (IH _ _ H).
    + injection H as <- _. exact (obj_vector_err _ _ Hv).
  - exact (IH _ _ H).
Qed.

Lemma stat_step_err (v : vertex) (a a' : acc) (i : nat) (e : exn) :
  stat_step v a i = Err e -> e = IndexError.
Proof.
  unfold stat_step. destruct (nth_error v i).
  - destruct (py_not _); [discriminate|]. discriminate.
  - congruence.
Qed.

Lemma stat_verts_err (vs : list vertex) (a : acc) (e : exn) :
  stat_verts vs a = Err e -> e = IndexError.
Proof.
  revert a. induction vs as [|v vs IH]; intros a; simpl; [discriminate|].
  unfold stat_vector. destruct (stat_step v a 0) as [a1|e1] eqn:H1; simpl;
    [|intros H; injection H as <-; exact (stat_step_err _ _ a _ _ H1)].
  destruct (stat_step v a1 1) as [a2|e2] eqn:H2; simpl;
    [|intros H; injection H as <-; exact (stat_step_err _ _ a _ _ H2)].
  destruct (stat_step v a2 2) as [a3|e3] eqn:H3; simpl;
    [apply IH | intros H; injection H as <-; exact (stat_step_err _ _ a _ _ H3)].
Qed.

Lemma stats_err (vs : list vertex) (e : exn) :
  stats vs = Err e -> catch_parse_error e = false.
Proof.
  unfold stats. destruct (stat_verts vs acc_init) as [a|e'] eqn:Hv; simpl.
  - unfold extent.
    destruct (nth 0 (acc_min a) None), (nth 0 (acc_max a) None); simpl;
      try (intros H; injection H as <-; reflexivity).
    destruct (nth 1 (acc_min a) None), (nth 1 (acc_max a) None); simpl;
      try (intros H; injection H as <-; reflexivity).
    destruct (nth 2 (acc_min a) None), (nth 2 (acc_max a) None); simpl;
      try (intros H; injection H as <-; reflexivity); discriminate.
  - intros H. injection H as <-. apply stat_verts_err in Hv. subst. reflexivity.
Qed.

Lemma substring_past_end (d : string) (n m : nat) :
  (String.length d <= n)%nat -> substring n m d = EmptyString.
Proof.
  intros H. pose proof (substring_length d n m) as Hl.
  destruct (substring n m d); [reflexivity|]. simpl in Hl. lia.
Qed.

(** C3 (as amended): [auto_detect] never rewinds the stream.  When the
    first [ObjModel] attempt under no hint fails with [ThreeDeeParseError],
    it has consumed the stream to its end, so the second [ObjModel] attempt
    reads no line and fails with ["Empyt model."] as well, and the outcome
    is that of the binary attempt started from that end position (which
    repositions the stream itself by its [seek(80)]). *)
Theorem auto_detect_no_rewind (s s1 : stream) (msg : string) :
  obj_model s = (Err (ThreeDeeParseError msg), s1) ->
  data s1 = data s
  /\ rest s1 = EmptyString
  /\ obj_model s1 = (Err (ThreeDeeParseError "Empyt model."), s1)
  /\ auto_detect None s = detect_binary s1.
Proof.
  intros H.
  assert (Hs1 : data s1 = data s /\ rest s1 = EmptyString).
  { revert H. unfold obj_model, threedee, bind, obj_load.
    destruct (obj_load_lines (split_lines (rest s)) [] s) as [[vs|e] s2] eqn:HL.
    - apply obj_load_lines_ok_pos in HL.
      unfold split_lines in HL. rewrite split_lines_acc_length in HL. simpl in HL.
      destruct vs as [|v vs].
      + intros Hr. injection Hr as _ <-. subst s2. simpl. split; [reflexivity|].
        unfold rest. simpl. apply substring_past_end.
        unfold rest. rewrite substring_length. lia.
      + unfold lift. intros Hr. injection Hr as Hst _.
        apply stats_err in Hst. discriminate.
    - intros Hr. injection Hr as -> _. apply obj_load_lines_err in HL. discriminate. }
  destruct Hs1 as [Hd Hr].
  assert (H1 : obj_model s1 = (Err (ThreeDeeParseError "Empyt model."), s1)).
  { unfold obj_model, threedee, bind, obj_load. rewrite Hr. reflexivity. }
  split; [exact Hd | split; [exact Hr | split; [exact H1|]]].
  rewrite auto_detect_eq. unfold try_except. cbn [hint_is hint_falsy orb].
  rewrite H. simpl. rewrite !detect_stl_eq. unfold try_except. cbn [hint_is hint_falsy orb].
  rewrite H1. reflexivity.
Qed.

Lemma auto_detect_no_rewind_witness :
  obj_model (mkStream obj_comment_only 0)
  = (Err (ThreeDeeParseError "Empyt model."), mkStream obj_comment_only 14)
  /\ (data (mkStream obj_comment_only 14) = data (mkStream obj_comment_only 0)
      /\ rest (mkStream obj_comment_only 14) = EmptyString
      /\ obj_model (mkStream obj_comment_only 14)
         = (Err (ThreeDeeParseError "Empyt model."), mkStream obj_comment_only 14)
      /\ auto_detect None (mkStream obj_comment_only 0) = detect_binary (mkStream obj_comment_only 14)).
Proof.
  assert (H : obj_model (mkStream obj_comment_only 0)
              = (Err (ThreeDeeParseError "Empyt model."), mkStream obj_comment_only 14))
    by (vm_compute; reflexivity).
  split; [exact H | exact (auto_detect_no_rewind _ _ _ H)].
Defined.

(** ** Statistics, axis by axis *)

Lemma list_set_length {A} (l : list A) (i : nat) (x : A) :
  List.length (list_set l i x) = List.length l.
Proof. revert i. induction l as [|y l IH]; intros [|i]; simpl; auto. Qed.

Lemma nth_list_set_eq {A} (l : list A) (i : nat) (x d : A) :
  (i < List.length l)%nat -> nth i (list_set l i x) d = x.
Proof.
  revert i. induction l as [|y l IH]; intros [|i] H; simpl in *; try lia; auto.
  apply IH. lia.
Qed.

Lemma nth_list_set_neq {A} (l : list A) (i j : nat) (x d : A) :
  i <> j -> nth j (list_set l i x) d = nth j l d.
Proof.
  revert i j. induction l as [|y l IH]; intros [|i] [|j] H; simpl; auto; try congruence.
Qed.

Lemma stat_step_axis (v : vertex) (a : acc) (i : nat) (num : pynum) :
  acc_wf a -> (i < 3)%nat -> nth_error v i = Some num ->
  exists a', stat_step v a i = Ok a' /\ acc_wf a'
    /\ axis_of a' i = step_axis (axis_of a i) num
    /\ (forall j, j <> i -> axis_of a' j = axis_of a j).
Proof.
  intros [Ha [Hn Hx]] Hi Hv. unfold stat_step. rewrite Hv.
  unfold axis_of, step_axis.
  destruct (nth i (acc_min a) None) as [mn|] eqn:Hmn;
  destruct (nth i (acc_max a) None) as [mx|] eqn:Hmx;
  destruct (py_not _) eqn:Hnot; try discriminate;
  try (eexists; split; [reflexivity|]; cbn [acc_average acc_min acc_max];
       split; [unfold acc_wf; cbn; rewrite !list_set_length; auto|];
       split; [rewrite !nth_list_set_eq by lia; reflexivity
              | intros j Hj; rewrite !nth_list_set_neq by congruence; reflexivity]).
  - eexists; split; [reflexivity|]. cbn [acc_average acc_min acc_max].
    destruct (py_lt num mn) eqn:H1, (py_lt mx num) eqn:H2;
      (split; [unfold acc_wf; cbn; rewrite ?list_set_length; auto|]);
      (split; [rewrite ?nth_list_set_eq by lia; rewrite ?Hmn, ?Hmx; reflexivity
              | intros j Hj; rewrite ?nth_list_set_neq by congruence; reflexivity]).
  - eexists; split; [reflexivity|]. cbn [acc_average acc_min acc_max].
    destruct (py_lt num mn) eqn:H1;
      (split; [unfold acc_wf; cbn; rewrite ?list_set_length; auto|]);
      (split; [rewrite ?nth_list_set_eq by lia; rewrite ?Hmn, ?Hmx; reflexivity
              | intros j Hj; rewrite ?nth_list_set_neq by congruence; reflexivity]).
Qed.

Lemma nth_error_long (v : vertex) (i : nat) :
  (3 <= List.length v)%nat -> (i < 3)%nat -> nth_error v i = Some (nth i v (PInt 0)).
Proof. intros H Hi. apply nth_error_nth'. lia. Qed.

Lemma stat_vector_axes (v : vertex) (a : acc) :
  acc_wf a -> (3 <= List.length v)%nat ->
  exists a', stat_vector v a = Ok a' /\ acc_wf a'
    /\ (forall i, (i < 3)%nat -> axis_of a' i = step_axis (axis_of a i) (nth i v (PInt 0))).
Proof.
  intros Hwf Hl. unfold stat_vector.
  destruct (stat_step_axis v a 0 _ Hwf ltac:(lia) (nth_error_long v 0 Hl ltac:(lia)))
    as [a1 [E1 [W1 [S1 O1]]]].
  rewrite E1. simpl rbind.
  destruct (stat_step_axis v a1 1 _ W1 ltac:(lia) (nth_error_long v 1 Hl ltac:(lia)))
    as [a2 [E2 [W2 [S2 O2]]]].
  rewrite E2. simpl rbind.
  destruct (stat_step_axis v a2 2 _ W2 ltac:(lia) (nth_error_long v 2 Hl ltac:(lia)))
    as [a3 [E3 [W3 [S3 O3]]]].
  exists a3. split; [exact E3 | split; [exact W3|]].
  intros [|[|[|i]]] Hi; try lia.
  - rewrite O3, O2, S1 by lia. reflexivity.
  - rewrite O3, S2, O1 by lia. reflexivity.
  - rewrite S3, O2, O1 by lia. reflexivity.
Qed.

Lemma stat_verts_axes (vs : list vertex) (a : acc) :
  acc_wf a -> Forall (fun v => 3 <= List.length v)%nat vs ->
  exists a', stat_verts vs a = Ok a' /\ acc_wf a'
    /\ (forall i, (i < 3)%nat -> axis_of a' i = fold_left step_axis (coords i vs) (axis_of a i)).
Proof.
  revert a. induction vs as [|v vs IH]; intros a Hwf Hall.
  - exists a. split; [reflexivity | split; [exact Hwf | reflexivity]].
  - inversion Hall as [|? ? Hv Hvs]; subst.
    destruct (stat_vector_axes v a Hwf Hv) as [a1 [E1 [W1 S1]]].
    destruct (IH a1 W1 Hvs) as [a2 [E2 [W2 S2]]].
    exists a2. simpl. rewrite E1. simpl. split; [exact E2 | split; [exact W2|]].
    intros i Hi. rewrite S2 by exact Hi. rewrite S1 by exact Hi. reflexivity.
Qed.

Lemma axis_of_init (i : nat) : (i < 3)%nat -> axis_of acc_init i = (PInt 0, None, None).
Proof. intros Hi. destruct i as [|[|[|i]]]; try lia; reflexivity. Qed.

Lemma acc_init_wf : acc_wf acc_init.
Proof. repeat split. Qed.

Lemma py_lt_int (a b : Z) : py_lt (PInt a) (PInt b) = Z.ltb a b.
Proof.
  unfold py_lt, f_lt, to_float. destruct (Z.ltb a b) eqn:E.
  - apply Z.ltb_lt in E. apply negb_true_iff. apply not_true_iff_false. intros H.
    apply Qle_bool_iff in H. rewrite <- Zle_Qle in H. lia.
  - apply Z.ltb_ge in E. apply negb_false_iff. apply Qle_bool_iff. rewrite <- Zle_Qle. exact E.
Qed.

Lemma py_not_int (z : Z) : py_not (Some (PInt z)) = Z.eqb z 0.
Proof. reflexivity. Qed.

Lemma step_axis_good (st : axis) (num : pynum) :
  axis_good st -> exists sm lo hi, step_axis st num = (sm, Some lo, Some hi).
Proof.
  destruct st as [[sm mn] mx]. intros [[-> ->]|[lo [hi [-> ->]]]].
  - do 3 eexists. reflexivity.
  - unfold step_axis. cbv beta iota. destruct (py_not (Some lo)).
    + do 3 eexists. reflexivity.
    + destruct (py_lt num lo), (py_lt hi num); do 3 eexists; reflexivity.
Qed.

Lemma fold_axis_nonempty (xs : list pynum) (st : axis) :
  xs <> [] -> axis_good st ->
  exists sm lo hi, fold_left step_axis xs st = (sm, Some lo, Some hi).
Proof.
  revert st. induction xs as [|x xs IH]; intros st Hne Hg; [congruence|].
  simpl. destruct (step_axis_good st x Hg) as [sm [lo [hi E]]].
  rewrite E. destruct xs as [|y ys].
  - simpl. exists sm, lo, hi. reflexivity.
  - apply IH; [discriminate|]. right. exists lo, hi. auto.
Qed.

Lemma stats_ok (vs : list vertex) :
  vs <> [] -> Forall (fun v => 3 <= List.length v)%nat vs ->
  exists m, stats vs = Ok m /\ verts m = vs
    /\ forall i, (i < 3)%nat ->
       exists sm lo hi,
         fold_left step_axis (coords i vs) (PInt 0, None, None) = (sm, Some lo, Some hi)
         /\ nth i (average m) (PInt 0) = py_div sm (PInt (Z.of_nat (List.length vs)))
         /\ nth i (min m) None = Some lo /\ nth i (max m) None = Some hi
         /\ extent_of m i = py_abs (py_sub lo hi).
Proof.
  intros Hne Hall.
  destruct (stat_verts_axes vs acc_init acc_init_wf Hall) as [a [E [[Wa [Wn Wx]] Ax]]].
  assert (Hax : forall i, (i < 3)%nat ->
            exists sm lo hi, axis_of a i = (sm, Some lo, Some hi)
              /\ fold_left step_axis (coords i vs) (PInt 0, None, None) = (sm, Some lo, Some hi)).
  { intros i Hi. rewrite Ax, axis_of_init by exact Hi.
    destruct (fold_axis_nonempty (coords i vs) (PInt 0, None, None)) as [sm [lo [hi F]]].
    - destruct vs; [congruence | discriminate].
    - left. auto.
    - exists sm, lo, hi. auto. }
  destruct (Hax 0%nat ltac:(lia)) as [s0 [l0 [h0 [A0 _]]]].
  destruct (Hax 1%nat ltac:(lia)) as [s1 [l1 [h1 [A1 _]]]].
  destruct (Hax 2%nat ltac:(lia)) as [s2 [l2 [h2 [A2 _]]]].
  unfold axis_of in A0, A1, A2.
  injection A0 as _ M0 X0. injection A1 as _ M1 X1. injection A2 as _ M2 X2.
  unfold stats. rewrite E. simpl rbind. unfold extent.
  rewrite M0, X0, M1, X1, M2, X2. simpl rbind.
  eexists. split; [reflexivity|]. split; [reflexivity|].
  intros i Hi. destruct (Hax i Hi) as [sm [lo [hi [Ai F]]]].
  unfold axis_of in Ai. injection Ai as Si Mi Xi.
  exists sm, lo, hi. split; [exact F|]. cbn [average min max].
  split; [|split; [exact Mi | split; [exact Xi|]]].
  - rewrite (nth_indep _ _ (py_div (PInt 0) (PInt (Z.of_nat (List.length vs)))))
      by (rewrite length_map; lia).
    pose proof (map_nth (fun x => py_div x (PInt (Z.of_nat (List.length vs))))
                  (acc_average a) (PInt 0) i) as HM.
    cbv beta in HM. rewrite HM, Si. reflexivity.
  - unfold extent_of. cbn [width depth height].
    destruct i as [|[|[|i]]]; try lia; simpl.
    + rewrite M0 in Mi; rewrite X0 in Xi; congruence.
    + rewrite M1 in Mi; rewrite X1 in Xi; congruence.
    + rewrite M2 in Mi; rewrite X2 in Xi; congruence.
Qed.

Lemma stats_ok_inv (vs : list vertex) (m : model) :
  stats vs = Ok m -> vs <> [] /\ Forall (fun v => 3 <= List.length v)%nat vs.
Proof.
  intros H. split.
  - intros ->. vm_compute in H. discriminate.
  - destruct (Forall_Exists_dec (fun v => 3 <= List.length v)%nat
               (fun v => le_dec 3 (List.length v)) vs) as [Hf|Hx]; [exact Hf|].
    exfalso. assert (Hs : Exists (fun v => List.length v < 3)%nat vs).
    { revert Hx. apply Exists_impl. intros v Hv. lia. }
    unfold stats in H. rewrite (stat_verts_short _ acc_init Hs) in H. discriminate.
Qed.

Lemma nth_int (v : vertex) (i : nat) :
  Forall (fun x => exists z, x = PInt z) v -> exists z, nth i v (PInt 0) = PInt z.
Proof.
  intros H. destruct (Nat.lt_ge_cases i (List.length v)) as [Hl|Hl].
  - rewrite Forall_forall in H. apply H. apply nth_In. exact Hl.
  - exists 0%Z. apply nth_overflow. exact Hl.
Qed.

Lemma coords_int (vs : list vertex) (i : nat) :
  int_vertices vs -> exists zs, coords i vs = map PInt zs /\ List.length zs = List.length vs.
Proof.
  unfold int_vertices. induction 1 as [|v vs Hv _ [zs [E L]]].
  - exists []. split; reflexivity.
  - destruct (nth_int v i Hv) as [z Ez]. exists (z :: zs).
    unfold coords in *. simpl. rewrite Ez, E. split; [reflexivity | lia].
Qed.

Lemma step_axis_int_good (st : axis) (z : Z) :
  axis_int_good st ->
  exists sm lo hi, step_axis st (PInt z) = (sm, Some (PInt lo), Some (PInt hi)) /\ (lo <= hi)%Z.
Proof.
  destruct st as [[sm mn] mx]. intros [[-> ->]|[lo [hi [-> [-> Hle]]]]].
  - exists (py_add sm (PInt z)), z, z. split; [reflexivity | lia].
  - unfold step_axis. cbv beta iota. rewrite py_not_int. destruct (Z.eqb lo 0).
    + exists (py_add sm (PInt z)), z, z. split; [reflexivity | lia].
    + rewrite !py_lt_int.
      destruct (Z.ltb z lo) eqn:H1, (Z.ltb hi z) eqn:H2;
        apply Z.ltb_lt in H1 || apply Z.ltb_ge in H1;
        apply Z.ltb_lt in H2 || apply Z.ltb_ge in H2;
        do 3 eexists; (split; [reflexivity|]); lia.
Qed.

Lemma fold_axis_int_good (zs : list Z) (st : axis) :
  zs <> [] -> axis_int_good st ->
  exists sm lo hi, fold_left step_axis (map PInt zs) st = (sm, Some (PInt lo), Some (PInt hi))
    /\ (lo <= hi)%Z.
Proof.
  revert st. induction zs as [|z zs IH]; intros st Hne Hg; [congruence|].
  simpl. destruct (step_axis_int_good st z Hg) as [sm [lo [hi [E Hle]]]].
  rewrite E. destruct zs as [|y ys].
  - simpl. exists sm, lo, hi. auto.
  - apply IH; [discriminate|]. right. exists lo, hi. auto.
Qed.

(** ** Extra properties of [ThreeDee.__init__] *)

(** The statistics of [ThreeDee.__init__] succeed exactly when the vertex
    list is non-empty and every vertex has at least three coordinates;
    the model then keeps the vertex list as loaded. *)
Theorem stats_succeeds_iff (vs : list vertex) :
  (exists m, stats vs = Ok m /\ verts m = vs)
  <-> (vs <> [] /\ Forall (fun v => 3 <= List.length v)%nat vs).
Proof.
  split.
  - intros [m [H _]]. exact (stats_ok_inv vs m H).
  - intros [Hne Hall]. destruct (stats_ok vs Hne Hall) as [m [H [Hv _]]].
    exists m. auto.
Qed.

(** On every model the statistics produce from int coordinates (as the
    binary STL loader yields), each axis has a set int minimum and maximum
    with [min[i] <= max[i]], and [width], [depth] and [height] are the int
    [max[i] - min[i]], so they are never negative; this holds even when a
    zero coordinate resets the running minimum. *)
Theorem stats_min_le_max (vs : list vertex) (m : model) (i : nat) :
  stats vs = Ok m -> (i < 3)%nat -> int_vertices vs ->
  exists lo hi : Z, nth i (min m) None = Some (PInt lo) /\ nth i (max m) None = Some (PInt hi)
    /\ (lo <= hi)%Z
    /\ extent_of m i = PInt (hi - lo).
Proof.
  intros H Hi Hint. destruct (stats_ok_inv vs m H) as [Hne Hall].
  destruct (stats_ok vs Hne Hall) as [m' [H' [_ Hax]]].
  rewrite H in H'. injection H' as <-.
  destruct (Hax i Hi) as [sm [lo [hi [F [_ [Hmn [Hmx Hext]]]]]]].
  destruct (coords_int vs i Hint) as [zs [Ez Hl]].
  rewrite Ez in F.
  destruct (fold_axis_int_good zs (PInt 0, None, None)) as [sm' [l [h [F' Hle]]]].
  - intros ->. simpl in Hl. destruct vs; [congruence | discriminate].
  - left. auto.
  - rewrite F in F'. injection F' as _ E2 E3. subst lo hi.
    exists l, h. split; [exact Hmn|]. split; [exact Hmx|]. split; [exact Hle|].
    rewrite Hext. cbn [py_sub py_abs]. f_equal. lia.
Qed.

Lemma stats_min_le_max_witness :
  let vs := [[PInt 0; PInt 1; PInt 2]; [PInt 5; PInt (-1); PInt 2]] in
  let m := mkModel vs [PInt 2; PInt 0; PInt 2]
             [Some (PInt 5); Some (PInt (-1)); Some (PInt 2)]
             [Some (PInt 5); Some (PInt 1); Some (PInt 2)]
             (PInt 0) (PInt 2) (PInt 0) in
  stats vs = Ok m /\ int_vertices vs
  /\ exists lo hi : Z, nth 1 (min m) None = Some (PInt lo) /\ nth 1 (max m) None = Some (PInt hi)
       /\ (lo <= hi)%Z
       /\ extent_of m 1 = PInt (hi - lo).
Proof.
  intros vs m.
  assert (H : stats vs = Ok m) by (vm_compute; reflexivity).
  assert (Hint : int_vertices vs) by (unfold int_vertices; repeat constructor; eexists; reflexivity).
  split; [exact H|]. split; [exact Hint|].
  exact (stats_min_le_max vs m 1 H ltac:(lia) Hint).
Defined.

Lemma zsum_app (a b : list Z) : zsum (a ++ b) = (zsum a + zsum b)%Z.
Proof. unfold zsum. induction a as [|x a IH]; simpl; [reflexivity | rewrite IH; lia]. Qed.

Lemma step_axis_exact (p : list Z) (st : axis) (x : Z) :
  (forall y, In y (p ++ [x]) -> y <> 0%Z) -> axis_exact p st ->
  axis_exact (p ++ [x]) (step_axis st (PInt x)).
Proof.
  destruct st as [[sm mn] mx]. intros Hnz [lo [hi [-> [-> [Hlo [Hhi [Hb ->]]]]]]].
  assert (Hlo0 : lo <> 0%Z) by (apply Hnz; apply in_or_app; left; exact Hlo).
  assert (Hsum : py_add (PInt (zsum p)) (PInt x) = PInt (zsum (p ++ [x]))).
  { rewrite zsum_app. cbn [py_add]. f_equal. unfold zsum. simpl. lia. }
  unfold step_axis. cbv beta iota. rewrite py_not_int.
  replace (Z.eqb lo 0) with false by (symmetry; apply Z.eqb_neq; exact Hlo0).
  rewrite !py_lt_int.
  assert (Hin : forall z, In z p -> In z (p ++ [x])) by (intros z Hz; apply in_or_app; auto).
  assert (Hx : In x (p ++ [x])) by (apply in_or_app; right; left; reflexivity).
  destruct (Z.ltb x lo) eqn:H1, (Z.ltb hi x) eqn:H2;
    apply Z.ltb_lt in H1 || apply Z.ltb_ge in H1;
    apply Z.ltb_lt in H2 || apply Z.ltb_ge in H2;
    eexists; eexists; (split; [reflexivity|]); (split; [reflexivity|]);
    (split; [auto|]); (split; [auto|]); (split; [|exact Hsum]);
    intros y Hy; apply in_app_or in Hy as [Hy|[<-|[]]];
    try (destruct (Hb y Hy); lia); lia.
Qed.

Lemma fold_axis_exact (xs p : list Z) (st : axis) :
  (forall y, In y (p ++ xs) -> y <> 0%Z) -> axis_exact p st ->
  axis_exact (p ++ xs) (fold_left step_axis (map PInt xs) st).
Proof.
  revert p st. induction xs as [|x xs IH]; intros p st Hnz Hst.
  - rewrite app_nil_r. exact Hst.
  - simpl. replace (p ++ x :: xs)%list with ((p ++ [x]) ++ xs)%list by (rewrite <- app_assoc; reflexivity).
    apply IH.
    + rewrite <- app_assoc. exact Hnz.
    + apply step_axis_exact; [|exact Hst].
      intros y Hy. apply Hnz. apply in_app_or in Hy as [Hy|[<-|[]]]; apply in_or_app; [left; exact Hy|right; left; reflexivity].
Qed.

Lemma fold_axis_exact_init (xs : list Z) :
  xs <> [] -> (forall y, In y xs -> y <> 0%Z) ->
  axis_exact xs (fold_left step_axis (map PInt xs) (PInt 0, None, None)).
Proof.
  destruct xs as [|x xs]; intros Hne Hnz; [congruence|].
  simpl. apply (fold_axis_exact xs [x]); [exact Hnz|].
  unfold axis_exact, step_axis, py_not. cbv beta iota. exists x, x.
  split; [reflexivity|]. split; [reflexivity|].
  split; [left; reflexivity|]. split; [left; reflexivity|].
  split.
  - intros y [<-|[]]. lia.
  - cbn. f_equal. lia.
Qed.

Lemma zsum_bounds (p : list Z) (lo hi : Z) :
  (forall x, In x p -> (lo <= x <= hi)%Z) ->
  (lo * Z.of_nat (List.length p) <= zsum p <= hi * Z.of_nat (List.length p))%Z.
Proof.
  unfold zsum. induction p as [|x p IH]; intros Hb.
  - simpl. lia.
  - cbn [List.length fold_right]. rewrite Nat2Z.inj_succ.
    destruct (Hb x (or_introl eq_refl)) as [Hx1 Hx2].
    destruct IH as [I1 I2]; [intros y Hy; apply Hb; right; exact Hy|].
    nia.
Qed.

(** When every coordinate is an int and no vertex has a zero coordinate on
    axis [i] (so the [if not self.min[i]] reset never fires after the first
    vertex), the statistics are exact on that axis: [min[i]] and [max[i]]
    are coordinates of the model and bound all of them, and the average
    [average[i]], a floor-divided int, lies between them. *)
Theorem stats_nonzero_extremes (vs : list vertex) (m : model) (i : nat) :
  stats vs = Ok m -> (i < 3)%nat -> int_vertices vs ->
  (forall v, In v vs -> nth i v (PInt 0) <> PInt 0) ->
  exists lo hi a : Z, nth i (min m) None = Some (PInt lo) /\ nth i (max m) None = Some (PInt hi)
    /\ In (PInt lo) (coords i vs) /\ In (PInt hi) (coords i vs)
    /\ (forall z, In (PInt z) (coords i vs) -> (lo <= z <= hi)%Z)
    /\ nth i (average m) (PInt 0) = PInt a
    /\ (lo <= a <= hi)%Z.
Proof.
  intros H Hi Hint Hnz. destruct (stats_ok_inv vs m H) as [Hne Hall].
  destruct (stats_ok vs Hne Hall) as [m' [H' [_ Hax]]].
  rewrite H in H'. injection H' as <-.
  destruct (Hax i Hi) as [sm [lo [hi [F [Avg [Mn [Mx _]]]]]]].
  destruct (coords_int vs i Hint) as [zs [Ez Hl]].
  assert (Hzne : zs <> []).
  { intros ->. simpl in Hl. destruct vs; [congruence | discriminate]. }
  assert (Hznz : forall y, In y zs -> y <> 0%Z).
  { intros y Hy Hy0. subst y.
    assert (Hc : In (PInt 0) (coords i vs)) by (rewrite Ez; apply in_map; exact Hy).
    unfold coords in Hc. apply in_map_iff in Hc as [v [Ev Hv]]. exact (Hnz v Hv Ev). }
  pose proof (fold_axis_exact_init zs Hzne Hznz) as Ex. rewrite <- Ez, F in Ex.
  destruct Ex as [l [h [E1 [E2 [Hlo [Hhi [Hb Hs]]]]]]].
  injection E1 as ->. injection E2 as ->. subst sm.
  assert (Hn : (0 < Z.of_nat (List.length vs))%Z) by (destruct vs; [congruence | simpl; lia]).
  destruct (zsum_bounds zs l h Hb) as [B1 B2]. rewrite Hl in B1, B2.
  exists l, h, (zsum zs / Z.of_nat (List.length vs))%Z.
  split; [exact Mn|]. split; [exact Mx|].
  split; [rewrite Ez; apply in_map; exact Hlo|].
  split; [rewrite Ez; apply in_map; exact Hhi|].
  split.
  { rewrite Ez. intros z Hz. apply in_map_iff in Hz as [z' [Ez' Hz']].
    injection Ez' as ->. exact (Hb _ Hz'). }
  split; [rewrite Avg; reflexivity|].
  split.
  - apply Z.div_le_lower_bound; lia.
  - apply Z.div_le_upper_bound; lia.
Qed.

Lemma stats_nonzero_extremes_witness :
  let vs := [[PInt 3; PInt 1; PInt 2]; [PInt (-1); PInt 4; PInt 2]] in
  let m := mkModel vs [PInt 1; PInt 2; PInt 2]
             [Some (PInt (-1)); Some (PInt 1); Some (PInt 2)]
             [Some (PInt 3); Some (PInt 4); Some (PInt 2)]
             (PInt 4) (PInt 3) (PInt 0) in
  stats vs = Ok m /\ int_vertices vs /\ (forall v, In v vs -> nth 1 v (PInt 0) <> PInt 0)
  /\ exists lo hi a : Z, nth 1 (min m) None = Some (PInt lo) /\ nth 1 (max m) None = Some (PInt hi)
    /\ In (PInt lo) (coords 1 vs) /\ In (PInt hi) (coords 1 vs)
    /\ (forall z, In (PInt z) (coords 1 vs) -> (lo <= z <= hi)%Z)
    /\ nth 1 (average m) (PInt 0) = PInt a
    /\ (lo <= a <= hi)%Z.
Proof.
  intros vs m.
  assert (H : stats vs = Ok m) by (vm_compute; reflexivity).
  assert (Hint : int_vertices vs) by (unfold int_vertices; repeat constructor; eexists; reflexivity).
  assert (Hnz : forall v, In v vs -> nth 1 v (PInt 0) <> PInt 0)
    by (intros v [<-|[<-|[]]]; discriminate).
  split; [exact H|]. split; [exact Hint|]. split; [exact Hnz|].
  exact (stats_nonzero_extremes vs m 1 H ltac:(lia) Hint Hnz).
Defined.

(** ** Binary STL layout *)

Lemma stl_num_exact (h : num_hint) (s : stream) :
  (pos s + num_width h <= String.length (data s))%nat ->
  stl_num h s = (unpack h (substring (pos s) (num_width h) (data s)),
                 mkStream (data s) (pos s + num_width h)).
Proof.
  intros H. cbv [stl_num bind read lift].
  assert (Hl : String.length (substring (pos s) (num_width h) (data s)) = num_width h).
  { rewrite substring_length. lia. }
  rewrite Hl. destruct (unpack h _); reflexivity.
Qed.

Lemma stl_num_real (d : string) (p : nat) :
  (p + 4 <= String.length d)%nat ->
  stl_num Real (mkStream d p) = (Ok (signed32 (le_unsigned (substring p 4 d))), mkStream d (p + 4)).
Proof.
  intros H. rewrite (stl_num_exact Real (mkStream d p) H). cbn [data pos num_width unpack].
  rewrite substring_length. replace (Nat.min 4 (String.length d - p)) with 4%nat by lia.
  reflexivity.
Qed.

Lemma stl_num_uint (d : string) (p : nat) :
  (p + 4 <= String.length d)%nat ->
  stl_num Uint (mkStream d p) = (Ok (le_unsigned (substring p 4 d)), mkStream d (p + 4)).
Proof.
  intros H. rewrite (stl_num_exact Uint (mkStream d p) H). cbn [data pos num_width unpack].
  rewrite substring_length. replace (Nat.min 4 (String.length d - p)) with 4%nat by lia.
  reflexivity.
Qed.

Lemma stl_vector_exact (d : string) (p : nat) :
  (p + 12 <= String.length d)%nat ->
  stl_vector (mkStream d p) = (Ok (vec_at d p), mkStream d (p + 12)).
Proof.
  intros H. unfold stl_vector, bind at 1. rewrite stl_num_real by lia.
  unfold bind at 1. rewrite stl_num_real by lia.
  unfold bind at 1. rewrite stl_num_real by lia.
  unfold ret, vec_at, real_at. repeat rewrite <- Nat.add_assoc. reflexivity.
Qed.

Lemma stl_triangle_exact (vs : list vertex) (d : string) (p : nat) :
  (p + 50 <= String.length d)%nat ->
  stl_triangle vs (mkStream d p)
  = (Ok (vs ++ [vec_at d (p + 12); vec_at d (p + 24); vec_at d (p + 36)])%list,
     mkStream d (p + 50)).
Proof.
  intros H. unfold stl_triangle, bind at 1. rewrite stl_vector_exact by lia.
  unfold bind at 1. rewrite stl_vector_exact by lia.
  unfold bind at 1. rewrite stl_vector_exact by lia.
  unfold bind at 1. rewrite stl_vector_exact by lia.
  unfold bind at 1. rewrite (stl_num_exact Short) by (simpl; lia).
  cbn [data pos num_width unpack]. rewrite substring_length.
  replace (Nat.min 2 (String.length d - (p + 12 + 12 + 12 + 12))) with 2%nat by lia.
  cbn [Nat.eqb]. unfold ret.
  replace (p + 12 + 12 + 12 + 12 + 2)%nat with (p + 50)%nat by lia.
  replace (p + 12 + 12)%nat with (p + 24)%nat by lia.
  replace (p + 24 + 12)%nat with (p + 36)%nat by lia.
  reflexivity.
Qed.

Lemma stl_triangles_exact (n : nat) (vs : list vertex) (d : string) (p : nat) :
  (p + 50 * n <= String.length d)%nat ->
  stl_triangles n vs (mkStream d p) = (Ok (vs ++ stl_records d p n)%list, mkStream d (p + 50 * n)).
Proof.
  revert vs p. induction n as [|n IH]; intros vs p H.
  - simpl. rewrite app_nil_r, Nat.add_0_r. reflexivity.
  - simpl stl_triangles. unfold bind at 1. rewrite stl_triangle_exact by lia.
    rewrite IH by lia. simpl stl_records. rewrite <- app_assoc.
    replace (p + 50 + 50 * n)%nat with (p + 50 * S n)%nat by lia. reflexivity.
Qed.

Lemma stl_records_length (d : string) (p n : nat) :
  List.length (stl_records d p n) = (3 * n)%nat.
Proof.
  revert p. induction n as [|n IH]; intros p; [reflexivity|].
  simpl. rewrite IH. lia.
Qed.

Lemma stl_records_long (d : string) (p n : nat) :
  Forall (fun v => List.length v = 3%nat) (stl_records d p n).
Proof.
  revert p. induction n as [|n IH]; intros p; [constructor|].
  simpl stl_records. repeat constructor. apply IH.
Qed.

Lemma stl_load_exact (d : string) (p : nat) :
  (84 + 50 * stl_count d <= String.length d)%nat ->
  stl_load [] (mkStream d p) = (Ok (stl_records d 84 (stl_count d)), mkStream d (84 + 50 * stl_count d)).
Proof.
  intros H. rewrite stl_load_eq. cbv beta. unfold bind at 1, seek. cbn [data].
  unfold bind at 1. rewrite stl_num_uint by lia.
  rewrite stl_triangles_exact by (unfold stl_count in H; lia). reflexivity.
Qed.

Lemma substring_prefix_prefix (d : string) (k L : nat) :
  (k <= L)%nat -> substring 0 k (substring 0 L d) = substring 0 k d.
Proof.
  revert k L. induction d as [|c d IH]; intros k L H.
  - destruct k, L; reflexivity.
  - destruct k as [|k]; [destruct L; reflexivity|].
    destruct L as [|L]; [lia|]. simpl. rewrite IH by lia. reflexivity.
Qed.

Lemma substring_empty (a k : nat) : substring a k EmptyString = EmptyString.
Proof. destruct a, k; reflexivity. Qed.

Lemma substring_of_prefix (d : string) (a k L : nat) :
  (a + k <= L)%nat -> substring a k (substring 0 L d) = substring a k d.
Proof.
  revert d L. induction a as [|a IH]; intros d L H.
  - apply substring_prefix_prefix. lia.
  - destruct d as [|c d].
    + destruct L; reflexivity.
    + destruct L as [|L]; [lia|]. simpl. apply IH. lia.
Qed.

Lemma substring_substring (d : string) (b a k L : nat) :
  (a + k <= L)%nat -> substring a k (substring b L d) = substring (b + a) k d.
Proof.
  revert d. induction b as [|b IH]; intros d H.
  - apply substring_of_prefix. exact H.
  - destruct d as [|c d].
    + simpl. destruct L; simpl; destruct a, k; reflexivity.
    + simpl. apply IH. exact H.
Qed.

Lemma stl_records_ext (d d' : string) (p n : nat) :
  (forall off, (p <= off)%nat -> (off + 4 <= p + 50 * n)%nat ->
     substring off 4 d = substring off 4 d') ->
  stl_records d p n = stl_records d' p n.
Proof.
  revert p. induction n as [|n IH]; intros p H; [reflexivity|].
  simpl stl_records. unfold vec_at, real_at.
  repeat rewrite (H (p + _ + _)%nat) by lia.
  repeat rewrite (H (p + _)%nat) by lia.
  rewrite IH; [reflexivity|]. intros off H1 H2. apply H; lia.
Qed.

Lemma stl_records_nonempty (d : string) (p n : nat) :
  (0 < n)%nat -> stl_records d p n <> [].
Proof. destruct n; [lia|]. intros _. simpl. discriminate. Qed.

Lemma stl_records_long3 (d : string) (p n : nat) :
  Forall (fun v => 3 <= List.length v)%nat (stl_records d p n).
Proof.
  eapply Forall_impl; [|apply stl_records_long]. intros v Hv. simpl in Hv. lia.
Qed.

(** [BinaryStlModel] reads the triangle count at bytes 80..83 and then,
    for a file holding all the declared records, exactly the vertex fields
    of each 50-byte record: the result is the model of [stl_records],
    three vertices per triangle, and the stream is left just after the
    last record whatever its position before. *)
Theorem binary_stl_model_layout (d : string) (p : nat) :
  (0 < stl_count d)%nat -> (84 + 50 * stl_count d <= String.length d)%nat ->
  exists m, binary_stl_model (mkStream d p) = (Ok m, mkStream d (84 + 50 * stl_count d))
    /\ verts m = stl_records d 84 (stl_count d)
    /\ List.length (verts m) = (3 * stl_count d)%nat.
Proof.
  intros Hn Hl. rewrite binary_stl_model_eq. unfold threedee, bind at 1.
  rewrite stl_load_exact by exact Hl.
  destruct (stats_ok (stl_records d 84 (stl_count d))
              (stl_records_nonempty d 84 _ Hn) (stl_records_long3 d 84 _))
    as [m [Hm [Hv _]]].
  destruct (stl_records d 84 (stl_count d)) as [|v vs] eqn:E;
    [exfalso; exact (stl_records_nonempty d 84 _ Hn E)|].
  exists m. unfold lift. rewrite Hm. split; [reflexivity|]. split; [exact Hv|].
  rewrite Hv, <- E. apply stl_records_length.
Qed.

Lemma binary_stl_model_layout_witness :
  let d := bytes (repeat 0%Z 80 ++ le32 1 ++ repeat 7%Z 50)%list in
  (0 < stl_count d)%nat /\ (84 + 50 * stl_count d <= String.length d)%nat
  /\ exists m, binary_stl_model (mkStream d 5) = (Ok m, mkStream d (84 + 50 * stl_count d))
    /\ verts m = stl_records d 84 (stl_count d)
    /\ List.length (verts m) = (3 * stl_count d)%nat.
Proof.
  intros d.
  assert (H1 : (0 < stl_count d)%nat) by (apply Nat.ltb_lt; vm_compute; reflexivity).
  assert (H2 : (84 + 50 * stl_count d <= String.length d)%nat)
    by (apply Nat.leb_le; vm_compute; reflexivity).
  split; [exact H1 | split; [exact H2 | exact (binary_stl_model_layout d 5 H1 H2)]].
Defined.

(** Given all the declared records, the outcome of [BinaryStlModel] depends
    only on bytes 80 to [84 + 50 * count]: not on the 80-byte header, not on
    trailing bytes after the last record, and not on the stream position
    before the call ([load] starts with [seek(80)]). *)
Theorem binary_stl_model_reads_only_records (d d' : string) (p p' : nat) :
  substring 80 (4 + 50 * stl_count d) d = substring 80 (4 + 50 * stl_count d) d' ->
  (84 + 50 * stl_count d <= String.length d)%nat ->
  (84 + 50 * stl_count d <= String.length d')%nat ->
  fst (binary_stl_model (mkStream d p)) = fst (binary_stl_model (mkStream d' p')).
Proof.
  intros Hs Hl Hl'.
  assert (Hoff : forall off, (80 <= off)%nat -> (off + 4 <= 84 + 50 * stl_count d)%nat ->
            substring off 4 d = substring off 4 d').
  { intros off H1 H2.
    replace off with (80 + (off - 80))%nat by lia.
    rewrite <- !(substring_substring _ 80 (off - 80) 4 (4 + 50 * stl_count d)) by lia.
    rewrite Hs. reflexivity. }
  assert (Hc : stl_count d' = stl_count d).
  { unfold stl_count. rewrite <- (Hoff 80%nat) by lia. reflexivity. }
  rewrite binary_stl_model_eq. unfold threedee, bind at 1. unfold bind at 1.
  rewrite !stl_load_exact by lia.
  rewrite Hc, (stl_records_ext d d' 84 (stl_count d)) by (intros; apply Hoff; lia).
  destruct (stl_records d' 84 (stl_count d)); reflexivity.
Qed.

Lemma binary_stl_model_reads_only_records_witness :
  let d := bytes (repeat 0%Z 80 ++ le32 1 ++ repeat 7%Z 50)%list in
  let d' := bytes (repeat 65%Z 80 ++ le32 1 ++ repeat 7%Z 50 ++ [1; 2; 3]%Z)%list in
  substring 80 (4 + 50 * stl_count d) d = substring 80 (4 + 50 * stl_count d) d'
  /\ (84 + 50 * stl_count d <= String.length d)%nat
  /\ (84 + 50 * stl_count d <= String.length d')%nat
  /\ fst (binary_stl_model (mkStream d 0)) = fst (binary_stl_model (mkStream d' 17)).
Proof.
  intros d d'.
  assert (H1 : substring 80 (4 + 50 * stl_count d) d = substring 80 (4 + 50 * stl_count d) d')
    by (vm_compute; reflexivity).
  assert (H2 : (84 + 50 * stl_count d <= String.length d)%nat)
    by (apply Nat.leb_le; vm_compute; reflexivity).
  assert (H3 : (84 + 50 * stl_count d <= String.length d')%nat)
    by (apply Nat.leb_le; vm_compute; reflexivity).
  split; [exact H1 | split; [exact H2 | split; [exact H3|]]].
  exact (binary_stl_model_reads_only_records d d' 0 17 H1 H2 H3).
Defined.

(** ** [auto_detect] and the shape of loaded models *)

Lemma obj_model_parse_error_at_end (s s1 : stream) (msg : string) :
  obj_model s = (Err (ThreeDeeParseError msg), s1) ->
  obj_model s1 = (Err (ThreeDeeParseError "Empyt model."), s1).
Proof.
  unfold obj_model, threedee, bind, obj_load.
  destruct (obj_load_lines (split_lines (rest s)) [] s) as [[vs|e] s2] eqn:HL.
  - apply obj_load_lines_ok_pos in HL.
    unfold split_lines in HL. rewrite split_lines_acc_length in HL. simpl in HL.
    destruct vs as [|v vs].
    + intros Hr. injection Hr as _ <-. subst s2.
      assert (Hr : rest (mkStream (data s) (pos s + String.length (rest s))) = EmptyString).
      { unfold rest. simpl. apply substring_past_end. unfold rest. rewrite substring_length. lia. }
      rewrite Hr. reflexivity.
    + unfold lift. intros Hr. injection Hr as Hst _.
      apply stats_err in Hst. discriminate.
  - intros Hr. injection Hr as -> _. apply obj_load_lines_err in HL. discriminate.
Qed.

(** With no hint (or the empty hint) [auto_detect] behaves exactly as with
    the hint ["stl"]: the extra first [ObjModel] attempt changes neither
    the result nor the final stream, because when it fails with
    [ThreeDeeParseError] the stream is exhausted and the second [ObjModel]
    attempt fails the same way without moving it. *)
Theorem auto_detect_no_hint_as_stl (s : stream) :
  auto_detect None s = auto_detect (Some "stl") s
  /\ auto_detect (Some "") s = auto_detect (Some "stl") s.
Proof.
  assert (H : try_except obj_model catch_parse_error
                (try_except obj_model catch_parse_error detect_binary) s
              = try_except obj_model catch_parse_error detect_binary s).
  { unfold try_except at 1 3. destruct (obj_model s) as [[m|e] s1] eqn:E; [reflexivity|].
    destruct (catch_parse_error e) eqn:Ce; [|reflexivity].
    destruct e; try discriminate.
    unfold try_except. rewrite (obj_model_parse_error_at_end s s1 msg E). reflexivity. }
  split; exact H.
Qed.

(** Under the hint ["obj"], [auto_detect] never tries the binary parser:
    its outcome is that of [ObjModel], or, when [ObjModel] fails with
    [ThreeDeeParseError], the final parse error at the stream [ObjModel]
    left. *)
Theorem auto_detect_obj_hint (s : stream) :
  auto_detect (Some "obj") s = obj_model s
  \/ exists msg s1, obj_model s = (Err (ThreeDeeParseError msg), s1)
       /\ auto_detect (Some "obj") s = (Err final_error, s1).
Proof.
  assert (H1 : hint_is (Some "obj") "obj" || hint_falsy (Some "obj") = true) by reflexivity.
  assert (H2 : hint_is (Some "obj") "stl" || hint_falsy (Some "obj") = false) by reflexivity.
  rewrite auto_detect_eq, detect_stl_eq. rewrite H1, H2. unfold try_except.
  destruct (obj_model s) as [[m|e] s1]; [left; reflexivity|].
  destruct e; try (left; reflexivity).
  right. exists msg, s1. split; reflexivity.
Qed.

Lemma rest_after_rest (s : stream) :
  rest (mkStream (data s) (pos s + String.length (rest s))) = EmptyString.
Proof. unfold rest. simpl. apply substring_past_end. unfold rest. rewrite substring_length. lia. Qed.

Lemma map_float_floats (toks : list string) (ns : list pynum) :
  map_float toks = Ok ns -> Forall (fun x => exists q, x = PFloat q) ns.
Proof.
  revert ns. induction toks as [|t ts IH]; intros ns H.
  - simpl in H. injection H as <-. constructor.
  - simpl in H. destruct (parse_float t) as [q|]; [|discriminate].
    destruct (map_float ts) as [ns'|e]; [|discriminate].
    injection H as <-. constructor; [eauto | apply IH; reflexivity].
Qed.

Lemma Forall_firstn_pre {A} (P : A -> Prop) (n : nat) (l : list A) :
  Forall P l -> Forall P (firstn n l).
Proof.
  revert l. induction n as [|n IH]; intros l H; [constructor|].
  destruct l as [|x l]; [constructor|]. inversion H; subst. simpl. constructor; auto.
Qed.

Lemma obj_vector_ok (line : string) (v : vertex) :
  obj_vector line = Ok v ->
  (List.length v <= 3)%nat /\ Forall (fun x => exists q, x = PFloat q) v.
Proof.
  unfold obj_vector. destruct (map_float _) as [ns|e] eqn:E; [|discriminate].
  intros H. assert (Hv : v = firstn 3 ns) by congruence. subst v. split.
  - apply firstn_le_length.
  - apply Forall_firstn_pre. exact (map_float_floats _ _ E).
Qed.

Lemma obj_load_lines_ok_shape (ls : list string) (acc0 vs : list vertex) (s s' : stream) :
  obj_load_lines ls acc0 s = (Ok vs, s') ->
  Forall (fun v => (List.length v <= 3)%nat /\ Forall (fun x => exists q, x = PFloat q) v) acc0 ->
  Forall (fun v => (List.length v <= 3)%nat /\ Forall (fun x => exists q, x = PFloat q) v) vs.
Proof.
  revert acc0 s. induction ls as [|l ls IH]; intros acc0 s H Ha.
  - simpl in H. injection H as <- _. exact Ha.
  - simpl in H. unfold bind at 1, advance in H.
    destruct (starts_with_v l).
    + unfold bind, lift in H. destruct (obj_vector l) as [v|e] eqn:Hv; [|discriminate].
      apply (IH _ _ H). apply Forall_app. split; [exact Ha|].
      constructor; [exact (obj_vector_ok _ _ Hv) | constructor].
    + exact (IH _ _ H Ha).
Qed.

Lemma three_floats (v : vertex) :
  (3 <= List.length v)%nat -> (List.length v <= 3)%nat ->
  Forall (fun x => exists q, x = PFloat q) v ->
  exists x y z, v = [PFloat x; PFloat y; PFloat z].
Proof.
  intros H1 H2 H3. destruct v as [|a [|b [|c [|e v]]]]; simpl in H1, H2; try lia.
  inversion H3 as [|? ? [x ->] H4]; subst. inversion H4 as [|? ? [y ->] H5]; subst.
  inversion H5 as [|? ? [z ->] _]; subst. eauto.
Qed.

Lemma obj_model_ok_inv (s s' : stream) (m : model) :
  obj_model s = (Ok m, s') ->
  data s' = data s /\ rest s' = EmptyString /\ verts m <> []
  /\ Forall (fun v => exists x y z, v = [PFloat x; PFloat y; PFloat z]) (verts m).
Proof.
  unfold obj_model, threedee, bind, obj_load.
  destruct (obj_load_lines (split_lines (rest s)) [] s) as [[vs|e] s2] eqn:HL; [|discriminate].
  pose proof (obj_load_lines_ok_shape _ _ _ _ _ HL (Forall_nil _)) as Hsh.
  apply obj_load_lines_ok_pos in HL.
  unfold split_lines in HL. rewrite split_lines_acc_length in HL. simpl in HL. subst s2.
  destruct vs as [|v vs]; [discriminate|].
  unfold lift. intros H. injection H as Hst <-.
  destruct (stats_ok_inv _ _ Hst) as [Hne Hall].
  destruct (stats_ok _ Hne Hall) as [m' [Hm' [Hv _]]].
  rewrite Hst in Hm'. injection Hm' as <-.
  split; [reflexivity|]. split; [apply rest_after_rest|]. rewrite Hv. split; [exact Hne|].
  revert Hall Hsh. generalize (v :: vs). intros l. rewrite !Forall_forall.
  intros H1 H2 w Hw. destruct (H2 w Hw) as [H3 H4]. exact (three_floats w (H1 w Hw) H3 H4).
Qed.

(** A successful [ObjModel] has read the file to its end, and its vertices
    (at least one) each hold exactly three floats: the first three numbers
    of a [v] line, and a line with fewer would have failed. *)
Theorem obj_model_ok_shape (s s' : stream) (m : model) :
  obj_model s = (Ok m, s') ->
  data s' = data s /\ rest s' = EmptyString /\ verts m <> []
  /\ Forall (fun v => exists x y z, v = [PFloat x; PFloat y; PFloat z]) (verts m).
Proof. exact (obj_model_ok_inv s s' m). Qed.

Lemma obj_model_ok_shape_witness :
  exists m s', obj_model (mkStream obj_vertex_and_normal 0) = (Ok m, s')
    /\ (data s' = data (mkStream obj_vertex_and_normal 0) /\ rest s' = EmptyString
        /\ verts m <> []
        /\ Forall (fun v => exists x y z, v = [PFloat x; PFloat y; PFloat z]) (verts m)).
Proof.
  destruct (obj_model (mkStream obj_vertex_and_normal 0)) as [[m|e] s'] eqn:E;
    [|vm_compute in E; discriminate].
  exists m, s'. split; [reflexivity|]. exact (obj_model_ok_shape _ _ _ E).
Defined.

Lemma stl_vector_ok (s s' : stream) (v : vertex) :
  stl_vector s = (Ok v, s') -> List.length v = 3%nat.
Proof.
  unfold stl_vector, bind, ret.
  destruct (stl_num Real s) as [[x|e] s1]; [|discriminate].
  destruct (stl_num Real s1) as [[y|e] s2]; [|discriminate].
  destruct (stl_num Real s2) as [[z|e] s3]; [|discriminate].
  intros H. injection H as <- _. reflexivity.
Qed.

Lemma stl_triangle_ok (vs r : list vertex) (s s' : stream) :
  stl_triangle vs s = (Ok r, s') ->
  Forall (fun v => List.length v = 3%nat) vs -> Forall (fun v => List.length v = 3%nat) r.
Proof.
  unfold stl_triangle, bind at 1.
  destruct (stl_vector s) as [[n|e] s1]; [|discriminate].
  unfold bind at 1. destruct (stl_vector s1) as [[v0|e] s2] eqn:E0; [|discriminate].
  unfold bind at 1. destruct (stl_vector s2) as [[v1|e] s3] eqn:E1; [|discriminate].
  unfold bind at 1. destruct (stl_vector s3) as [[v2|e] s4] eqn:E2; [|discriminate].
  unfold bind at 1. destruct (stl_num Short s4) as [[c|e] s5]; [|discriminate].
  unfold ret. intros H Hvs. injection H as <- _.
  apply Forall_app. split; [exact Hvs|].
  repeat constructor; eapply stl_vector_ok; eassumption.
Qed.

Lemma stl_triangles_ok (n : nat) (vs r : list vertex) (s s' : stream) :
  stl_triangles n vs s = (Ok r, s') ->
  Forall (fun v => List.length v = 3%nat) vs -> Forall (fun v => List.length v = 3%nat) r.
Proof.
  revert vs s. induction n as [|n IH]; intros vs s H Hvs.
  - simpl in H. injection H as <- _. exact Hvs.
  - simpl in H. unfold bind at 1 in H.
    destruct (stl_triangle vs s) as [[vs'|e] s1] eqn:E; [|discriminate].
    exact (IH _ _ H (stl_triangle_ok _ _ _ _ E Hvs)).
Qed.

Lemma stl_load_ok (r : list vertex) (s s' : stream) :
  stl_load [] s = (Ok r, s') -> Forall (fun v => List.length v = 3%nat) r.
Proof.
  rewrite stl_load_eq. cbv beta. unfold bind at 1, seek. unfold bind at 1.
  destruct (stl_num Uint _) as [[c|e] s1]; [|discriminate].
  intros H. exact (stl_triangles_ok _ _ _ _ _ H (Forall_nil _)).
Qed.

Lemma threedee_ok_models (load : list vertex -> M (list vertex)) :
  (forall s r s', load [] s = (Ok r, s') -> Forall (fun v => List.length v = 3%nat) r) ->
  ok_models (threedee load).
Proof.
  intros Hl s m s'. unfold threedee, bind.
  destruct (load [] s) as [[vs|e] s1] eqn:E; [|discriminate].
  destruct vs as [|v vs]; [discriminate|].
  unfold lift. intros H. injection H as Hst _.
  destruct (stats_ok_inv _ _ Hst) as [Hne Hall].
  destruct (stats_ok _ Hne Hall) as [m' [Hm' [Hv _]]].
  rewrite Hst in Hm'. injection Hm' as <-.
  split; rewrite Hv; [exact Hne | exact (Hl _ _ _ E)].
Qed.

Lemma obj_ok_models : ok_models obj_model.
Proof.
  intros s m s' H. destruct (obj_model_ok_inv s s' m H) as [_ [_ [Hne Hall]]].
  split; [exact Hne|]. revert Hall. apply Forall_impl.
  intros v [x [y [z ->]]]. reflexivity.
Qed.

Lemma binary_ok_models : ok_models binary_stl_model.
Proof. apply threedee_ok_models. intros s r s'. apply stl_load_ok. Qed.

Lemma try_except_ok_models (a b : M model) (c : exn -> bool) :
  ok_models a -> ok_models b -> ok_models (try_except a c b).
Proof.
  intros Ha Hb s m s'. unfold try_except.
  destruct (a s) as [[m0|e] s1] eqn:E.
  - intros H. injection H as <- _. exact (Ha _ _ _ E).
  - destruct (c e); [apply Hb | discriminate].
Qed.

Lemma detect_fail_ok_models : ok_models detect_fail.
Proof. intros s m s' H. discriminate. Qed.

(** Whatever the hint, a model [auto_detect] returns (from [ObjModel] or
    from [BinaryStlModel]) has at least one vertex, and every vertex has
    exactly three coordinates. *)
Theorem auto_detect_ok_shape (hint : option string) (s s' : stream) (m : model) :
  auto_detect hint s = (Ok m, s') ->
  verts m <> [] /\ Forall (fun v => List.length v = 3%nat) (verts m).
Proof.
  assert (Hb : ok_models detect_binary)
    by (apply try_except_ok_models; [exact binary_ok_models | exact detect_fail_ok_models]).
  assert (Hs : ok_models (detect_stl hint)).
  { rewrite !detect_stl_eq. destruct (_ || _);
      [apply try_except_ok_models; [exact obj_ok_models | exact Hb] | exact detect_fail_ok_models]. }
  assert (Ha : ok_models (auto_detect hint)).
  { rewrite auto_detect_eq. destruct (_ || _);
      [apply try_except_ok_models; [exact obj_ok_models | exact Hs] | exact Hs]. }
  exact (Ha s m s').
Qed.

Lemma auto_detect_ok_shape_witness :
  exists m s', auto_detect None (mkStream stl_one_triangle 0) = (Ok m, s')
    /\ (verts m <> [] /\ Forall (fun v => List.length v = 3%nat) (verts m)).
Proof.
  destruct (auto_detect None (mkStream stl_one_triangle 0)) as [[m|e] s'] eqn:E;
    [|vm_compute in E; discriminate].
  exists m, s'. split; [reflexivity|]. exact (auto_detect_ok_shape _ _ _ _ E).
Defined.

(** ** Errors of [BinaryStlModel] *)

Lemma binary_stl_model_short (d : string) (p : nat) :
  (String.length d < 84 + 50 * stl_count d)%nat ->
  fst (binary_stl_model (mkStream d p)) = Err StructError.
Proof.
  intros H. rewrite binary_stl_model_eq. unfold threedee. apply bind_err.
  rewrite stl_load_eq. cbv beta. unfold bind at 1, seek. cbn [data].
  destruct (Nat.le_gt_cases 84 (String.length d)) as [Hl|Hl].
  - unfold bind at 1. rewrite stl_num_uint by lia.
    apply (proj2 (reads_stl_triangles _ [])); simpl; unfold stl_count in H; lia.
  - apply bind_err. apply stl_num_short. simpl. lia.
Qed.

Lemma binary_stl_model_err_inv (d : string) (p : nat) (e : exn) (s' : stream) :
  binary_stl_model (mkStream d p) = (Err e, s') ->
  (e = StructError /\ (String.length d < 84 + 50 * stl_count d)%nat)
  \/ (e = ThreeDeeParseError "Empyt model." /\ stl_count d = 0%nat
      /\ (84 <= String.length d)%nat).
Proof.
  intros H. destruct (Nat.le_gt_cases (84 + 50 * stl_count d) (String.length d)) as [Hl|Hl].
  - right. revert H. rewrite binary_stl_model_eq. unfold threedee, bind at 1.
    rewrite stl_load_exact by exact Hl.
    pose proof (stl_records_length d 84 (stl_count d)) as Hlen.
    pose proof (stl_records_long3 d 84 (stl_count d)) as Hall.
    destruct (stl_records d 84 (stl_count d)) as [|v vs] eqn:E.
    + simpl in Hlen. intros Hr. injection Hr as <- _.
      split; [reflexivity | split; lia].
    + destruct (stats_ok (v :: vs) ltac:(discriminate) Hall) as [m [Hm _]].
      unfold lift. rewrite Hm. discriminate.
  - left. split; [|exact Hl].
    pose proof (binary_stl_model_short d p Hl) as Hs. rewrite H in Hs.
    injection Hs as ->. reflexivity.
Qed.

Lemma le_unsigned_nonneg (b : string) : (0 <= le_unsigned b)%Z.
Proof.
  induction b as [|c b IH]; cbn [le_unsigned]; [lia|].
  unfold byte_val. lia.
Qed.

Lemma stl_count_of_z (d : string) : Z.of_nat (stl_count d) = stl_count_z d.
Proof. unfold stl_count. rewrite Z2Nat.id; [reflexivity | apply le_unsigned_nonneg]. Qed.

Lemma binary_stl_model_with_header_short (fits : Z -> bool) (d : string) (p : nat) :
  (String.length d < 84)%nat -> fst (binary_stl_model_with fits (mkStream d p)) = Err StructError.
Proof.
  intros H. unfold binary_stl_model_with, threedee. apply bind_err.
  unfold stl_load_with, bind at 1, seek. cbn [data].
  apply bind_err. apply stl_num_short. simpl. lia.
Qed.

(** Past the count, [range(triangle_count)] either raises [MemoryError] or
    the loader goes on as on a machine where it always fits. *)
Lemma binary_stl_model_with_count (fits : Z -> bool) (d : string) (p : nat) :
  (84 <= String.length d)%nat ->
  binary_stl_model_with fits (mkStream d p)
  = if fits (stl_count_z d) then binary_stl_model (mkStream d p)
    else (Err MemoryError, mkStream d 84).
Proof.
  intros H. unfold stl_count_z.
  cbv [binary_stl_model binary_stl_model_with threedee stl_load stl_load_with bind seek
       range_alloc always_fits ret raise data].
  rewrite (stl_num_uint d 80) by lia.
  destruct (fits (le_unsigned (substring 80 4 d))); reflexivity.
Qed.

Lemma fst_err_exists {A} (r : result A * stream) (e : exn) :
  fst r = Err e -> exists s', r = (Err e, s').
Proof. destruct r as [r s']. simpl. intros ->. exists s'. reflexivity. Qed.

(** [BinaryStlModel], for any amount of memory [fits], raises exactly
    these errors: [struct.error] when the file ends before the count (84
    bytes) or, once [range(triangle_count)] fits, before the 50 bytes of
    each declared triangle; [MemoryError] when the file has its count and
    [range(triangle_count)] does not fit; ["Empyt model."] when a file with
    its count declares zero triangles and [range(0)] fits.  It never raises
    [IndexError], [TypeError] or [ValueError], whatever the bytes. *)
Theorem binary_stl_model_errors (fits : Z -> bool) (d : string) (p : nat) (e : exn) :
  (exists s', binary_stl_model_with fits (mkStream d p) = (Err e, s'))
  <-> (e = StructError
       /\ ((String.length d < 84)%nat
           \/ ((84 <= String.length d)%nat /\ fits (stl_count_z d) = true
               /\ (String.length d < 84 + 50 * stl_count d)%nat)))
      \/ (e = MemoryError /\ (84 <= String.length d)%nat
          /\ fits (stl_count_z d) = false)
      \/ (e = ThreeDeeParseError "Empyt model." /\ (84 <= String.length d)%nat
          /\ fits (stl_count_z d) = true /\ stl_count_z d = 0%Z).
Proof.
  split.
  - intros [s' H]. destruct (Nat.lt_ge_cases (String.length d) 84) as [Hl|Hl].
    + left. pose proof (binary_stl_model_with_header_short fits d p Hl) as Hs.
      rewrite H in Hs. injection Hs as ->. split; [reflexivity | left; exact Hl].
    + rewrite binary_stl_model_with_count in H by exact Hl.
      destruct (fits (stl_count_z d)) eqn:F.
      * apply binary_stl_model_err_inv in H as [[-> Hs]|[-> [Hc _]]].
        -- left. split; [reflexivity | right; auto].
        -- right; right. rewrite <- stl_count_of_z, Hc. auto.
      * injection H as <- _. right; left. auto.
  - intros [[-> [Hl|[Hl [F Hs]]]]|[[-> [Hl F]]|[-> [Hl [F Hc]]]]].
    + apply fst_err_exists. apply binary_stl_model_with_header_short. exact Hl.
    + rewrite binary_stl_model_with_count, F by exact Hl.
      apply fst_err_exists. apply binary_stl_model_short. exact Hs.
    + rewrite binary_stl_model_with_count, F by exact Hl. eexists. reflexivity.
    + rewrite binary_stl_model_with_count, F by exact Hl.
      rewrite binary_stl_model_eq. unfold threedee, bind at 1.
      assert (Hc' : stl_count d = 0%nat) by (unfold stl_count; fold (stl_count_z d); rewrite Hc; reflexivity).
      rewrite stl_load_exact by lia. rewrite Hc'. eexists. reflexivity.
Qed.

Lemma binary_stl_model_errors_witness :
  (84 <= String.length stl_huge_count)%nat
  /\ small_memory (stl_count_z stl_huge_count) = false
  /\ exists s', binary_stl_model_with small_memory (mkStream stl_huge_count 0) = (Err MemoryError, s').
Proof.
  assert (H1 : (84 <= String.length stl_huge_count)%nat) by (vm_compute; lia).
  assert (H2 : small_memory (stl_count_z stl_huge_count) = false)
    by (vm_compute; reflexivity).
  split; [exact H1 | split; [exact H2|]].
  apply (proj2 (binary_stl_model_errors small_memory stl_huge_count 0 MemoryError)).
  right; left. split; [reflexivity | split; [exact H1 | exact H2]].
Defined.

(** ** Errors of [ObjModel] and of [auto_detect] *)

Lemma stats_err_index (v : vertex) (vs : list vertex) (e : exn) :
  stats (v :: vs) = Err e -> e = IndexError.
Proof.
  intros H.
  destruct (Forall_Exists_dec (fun w => 3 <= List.length w)%nat
              (fun w => le_dec 3 (List.length w)) (v :: vs)) as [Hf|Hx].
  - destruct (stats_ok (v :: vs) ltac:(discriminate) Hf) as [m [Hm _]]. congruence.
  - assert (Hs : Exists (fun w => List.length w < 3)%nat (v :: vs)).
    { revert Hx. apply Exists_impl. intros w Hw. lia. }
    unfold stats in H. rewrite (stat_verts_short _ acc_init Hs) in H.
    injection H as <-. reflexivity.
Qed.

(** [ObjModel] raises only [ValueError] (a coordinate that [float()]
    rejects), [IndexError] (a vertex with fewer than three coordinates) or
    ["Empyt model."] (no [v] line); in particular never the [TypeError] of
    [None - x] in the extent computation. *)
Theorem obj_model_errors (s s' : stream) (e : exn) :
  obj_model s = (Err e, s') ->
  e = ValueError \/ e = IndexError \/ e = ThreeDeeParseError "Empyt model.".
Proof.
  unfold obj_model, threedee, bind, obj_load.
  destruct (obj_load_lines (split_lines (rest s)) [] s) as [[vs|e'] s2] eqn:HL.
  - destruct vs as [|v vs].
    + intros H. injection H as <- _. right; right; reflexivity.
    + unfold lift. intros H. injection H as Hst _.
      right; left. exact (stats_err_index _ _ _ Hst).
  - intros H. injection H as -> _. left. exact (obj_load_lines_err _ _ _ _ _ HL).
Qed.

Lemma obj_model_errors_witness :
  exists e s', obj_model (mkStream obj_short_vertex 0) = (Err e, s')
    /\ (e = ValueError \/ e = IndexError \/ e = ThreeDeeParseError "Empyt model.").
Proof.
  destruct (obj_model (mkStream obj_short_vertex 0)) as [[m|e] s'] eqn:E;
    [vm_compute in E; discriminate|].
  exists e, s'. split; [reflexivity|]. exact (obj_model_errors _ _ _ E).
Defined.

Lemma obj_model_err_cases (s s' : stream) (e : exn) :
  obj_model s = (Err e, s') ->
  e = ValueError \/ e = IndexError \/ catch_parse_error e = true.
Proof.
  unfold obj_model, threedee, bind, obj_load.
  destruct (obj_load_lines (split_lines (rest s)) [] s) as [[vs|e'] s2] eqn:HL.
  - destruct vs as [|v vs].
    + intros H. injection H as <- _. right; right; reflexivity.
    + unfold lift. intros H. injection H as Hst _.
      right; left. exact (stats_err_index _ _ _ Hst).
  - intros H. injection H as -> _. left. exact (obj_load_lines_err _ _ _ _ _ HL).
Qed.

Lemma binary_err_cases (s s' : stream) (e : exn) :
  binary_stl_model s = (Err e, s') -> e = StructError \/ catch_parse_error e = true.
Proof.
  destruct s as [d p]. intros H.
  destruct (binary_stl_model_err_inv d p e s' H) as [[-> _]|[-> _]]; [left|right]; reflexivity.
Qed.

Lemma try_except_errs (a b : M model) (c : exn -> bool) (P : exn -> Prop) :
  (forall s e s', a s = (Err e, s') -> c e = false -> P e) ->
  (forall s e s', b s = (Err e, s') -> P e) ->
  forall s e s', try_except a c b s = (Err e, s') -> P e.
Proof.
  intros Ha Hb s e s'. unfold try_except.
  destruct (a s) as [[m|e0] s1] eqn:E; [discriminate|].
  destruct (c e0) eqn:Hc; [apply Hb|].
  intros H. injection H as <- _. exact (Ha _ _ _ E Hc).
Qed.

(** The errors that can leave [auto_detect], whatever the hint: its own
    final [ThreeDeeParseError], or the [ValueError], [IndexError] and
    [struct.error] of a candidate parser, which it does not catch; a
    candidate's ["Empyt model."] never escapes. *)
Theorem auto_detect_errors (hint : option string) (s s' : stream) (e : exn) :
  auto_detect hint s = (Err e, s') ->
  e = final_error \/ e = ValueError \/ e = IndexError \/ e = StructError.
Proof.
  set (P := fun e => e = final_error \/ e = ValueError \/ e = IndexError \/ e = StructError).
  change (auto_detect hint s = (Err e, s') -> P e).
  assert (Hf : forall s e s', detect_fail s = (Err e, s') -> P e).
  { intros s0 e0 s0' H. injection H as <- _. left. reflexivity. }
  assert (Ho : forall s e s', obj_model s = (Err e, s') -> catch_parse_error e = false -> P e).
  { intros s0 e0 s0' H Hc. destruct (obj_model_err_cases _ _ _ H) as [->|[->|H']].
    - right; left; reflexivity.
    - right; right; left; reflexivity.
    - congruence. }
  assert (Hb : forall s e s', detect_binary s = (Err e, s') -> P e).
  { apply try_except_errs; [|exact Hf].
    intros s0 e0 s0' H Hc. destruct (binary_err_cases _ _ _ H) as [->|H'].
    - right; right; right; reflexivity.
    - destruct e0; try discriminate. }
  assert (Hs : forall s e s', detect_stl hint s = (Err e, s') -> P e).
  { rewrite !detect_stl_eq. destruct (_ || _); [apply try_except_errs; [exact Ho | exact Hb] | exact Hf]. }
  rewrite auto_detect_eq. destruct (_ || _); [apply try_except_errs; [exact Ho | exact Hs] | exact (Hs s e s')].
Qed.

Lemma auto_detect_errors_witness :
  exists e s', auto_detect None (mkStream obj_short_vertex 0) = (Err e, s')
    /\ (e = final_error \/ e = ValueError \/ e = IndexError \/ e = StructError).
Proof.
  destruct (auto_detect None (mkStream obj_short_vertex 0)) as [[m|e] s'] eqn:E;
    [vm_compute in E; discriminate|].
  exists e, s'. split; [reflexivity|]. exact (auto_detect_errors _ _ _ _ E).
Defined.

(** ** Range of binary coordinates *)

Lemma le_unsigned_range (b : string) :
  (0 <= le_unsigned b < 256 ^ Z.of_nat (String.length b))%Z.
Proof.
  induction b as [|c b IH]; cbn [le_unsigned String.length].
  - simpl. lia.
  - pose proof (nat_ascii_bounded c) as Hc. unfold byte_val.
    rewrite Nat2Z.inj_succ, Z.pow_succ_r by lia. lia.
Qed.

Lemma signed32_range (u : Z) :
  (0 <= u < 2 ^ 32)%Z -> (- 2 ^ 31 <= signed32 u < 2 ^ 31)%Z.
Proof. unfold signed32. destruct (Z.ltb_spec u (2 ^ 31)); lia. Qed.

Lemma stl_num_real_range (s s' : stream) (z : Z) :
  stl_num Real s = (Ok z, s') -> (- 2 ^ 31 <= z < 2 ^ 31)%Z.
Proof.
  cbv [stl_num bind read lift unpack num_width].
  set (b := substring (pos s) 4 (data s)).
  destruct (String.length b =? 4)%nat eqn:E; [|discriminate].
  apply Nat.eqb_eq in E. intros H. injection H as <- _.
  apply signed32_range. pose proof (le_unsigned_range b) as R. rewrite E in R.
  change (256 ^ Z.of_nat 4)%Z with (2 ^ 32)%Z in R. exact R.
Qed.

Lemma stl_vector_range (s s' : stream) (v : vertex) :
  stl_vector s = (Ok v, s') -> int32_vertex v.
Proof.
  unfold stl_vector, bind, ret.
  destruct (stl_num Real s) as [[x|e] s1] eqn:Ex; [|discriminate].
  destruct (stl_num Real s1) as [[y|e] s2] eqn:Ey; [|discriminate].
  destruct (stl_num Real s2) as [[z|e] s3] eqn:Ez; [|discriminate].
  intros H. injection H as <- _.
  apply stl_num_real_range in Ex, Ey, Ez.
  repeat constructor; eauto.
Qed.

Lemma stl_triangles_range (n : nat) (vs r : list vertex) (s s' : stream) :
  stl_triangles n vs s = (Ok r, s') -> Forall int32_vertex vs -> Forall int32_vertex r.
Proof.
  revert vs s. induction n as [|n IH]; intros vs s H Hvs.
  - simpl in H. injection H as <- _. exact Hvs.
  - simpl in H. unfold bind at 1 in H.
    destruct (stl_triangle vs s) as [[vs'|e] s1] eqn:E; [|discriminate].
    apply (IH _ _ H). revert E. unfold stl_triangle, bind at 1.
    destruct (stl_vector s) as [[nv|e] t1]; [|discriminate].
    unfold bind at 1. destruct (stl_vector t1) as [[v0|e] t2] eqn:E0; [|discriminate].
    unfold bind at 1. destruct (stl_vector t2) as [[v1|e] t3] eqn:E1; [|discriminate].
    unfold bind at 1. destruct (stl_vector t3) as [[v2|e] t4] eqn:E2; [|discriminate].
    unfold bind at 1. destruct (stl_num Short t4) as [[c|e] t5]; [|discriminate].
    unfold ret. intros Hr. injection Hr as <- _.
    apply Forall_app. split; [exact Hvs|].
    repeat constructor; eapply stl_vector_range; eassumption.
Qed.

Lemma stats_verts (vs : list vertex) (m : model) : stats vs = Ok m -> verts m = vs.
Proof.
  intros H. destruct (stats_ok_inv vs m H) as [Hne Hall].
  destruct (stats_ok vs Hne Hall) as [m' [Hm [Hv _]]]. congruence.
Qed.

(** Since [__num(fileob, "real")] unpacks with ["<i"], every coordinate of
    a model [BinaryStlModel] returns is a Python int in
    [[-2^31, 2^31)], never a float. *)
Theorem binary_stl_model_int_coords (s s' : stream) (m : model) :
  binary_stl_model s = (Ok m, s') -> Forall int32_vertex (verts m).
Proof.
  rewrite binary_stl_model_eq. unfold threedee, bind at 1.
  destruct (stl_load [] s) as [[vs|e] s1] eqn:E; [|discriminate].
  destruct vs as [|v vs]; [discriminate|].
  unfold lift. intros H. injection H as Hst _. rewrite (stats_verts _ _ Hst).
  revert E. rewrite stl_load_eq. cbv beta. unfold bind at 1, seek. unfold bind at 1.
  destruct (stl_num Uint _) as [[c|e] s2]; [|discriminate].
  intros E. exact (stl_triangles_range _ _ _ _ _ E (Forall_nil _)).
Qed.

Lemma binary_stl_model_int_coords_witness :
  exists m s', binary_stl_model (mkStream stl_one_triangle 0) = (Ok m, s')
    /\ Forall int32_vertex (verts m).
Proof.
  destruct (binary_stl_model (mkStream stl_one_triangle 0)) as [[m|e] s'] eqn:E;
    [|vm_compute in E; discriminate].
  exists m, s'. split; [reflexivity|]. exact (binary_stl_model_int_coords _ _ _ E).
Defined.
